(** * streaming-runner: the manager and its message pipeline

    A shallow embedding of [internal/manager] (the source controller
    [Add]/[Update], the consumer loop [subscribe], the feature resolver
    [getFeatureDefinitions]/[getFeature], the RPC wrappers
    [registerSchema]/[registerProgram] and the execution pipeline
    [handle]).

    Go code that mutates the manager, calls the runtime or writes to the
    logger is embedded as a state-passing computation over [State]; every
    observable call is appended to a chronological trace.  A nil-pointer
    dereference is an explicit [Panic] outcome.  The collaborators the
    package only talks to (runtime, metadata store, broker registry,
    decoders) are the fields of an environment record [Env]. *)

From Stdlib Require Import String Ascii List ZArith Lia Bool DecimalString.
From stdpp Require Import base gmap list strings sorting.
Import ListNotations.
Local Open Scope string_scope.

(** ** Go errors *)

Module codes.
(** [google.golang.org/grpc/codes]: the codes this package can observe. *)
Inductive Code : Set :=
| OK | Canceled | Unknown | InvalidArgument | DeadlineExceeded
| NotFound | Unavailable | Internal.

Definition eqb (a b : Code) : bool :=
  match a, b with
  | OK, OK | Canceled, Canceled | Unknown, Unknown
  | InvalidArgument, InvalidArgument | DeadlineExceeded, DeadlineExceeded
  | NotFound, NotFound | Unavailable, Unavailable | Internal, Internal => true
  | _, _ => false
  end.
End codes.

(** An [error] value: [fmt.Errorf] without [%w] gives [errorString],
    [fmt.Errorf("...: %w", err)] gives [wrapError] around [err], and the
    gRPC client returns [statusError]. *)
Inductive error : Set :=
| errorString (msg : string)
| wrapError (msg : string) (err : error)
| statusError (code : codes.Code) (msg : string).

Module status.
(** [status.Code(err)] for a non-nil [err]: the code of a status error,
    [Unknown] for every other error. *)
Definition Code (err : error) : codes.Code :=
  match err with
  | statusError c _ => c
  | _ => codes.Unknown
  end.
End status.

(** ** net/url: the parts [handle] and [getFeature] use *)

Module url.

Record URL : Set := mkURL {
  Scheme : string;
  Opaque : string;
  User : option (string * option string);
  Host : string;
  Path : string;
  RawPath : string;
  ForceQuery : bool;
  RawQuery : string;
  Fragment : string;
  RawFragment : string;
}.

(** [url.URL{}] *)
Definition zero : URL :=
  mkURL "" "" None "" "" "" false "" "" "".

(** [u.Fragment = f] *)
Definition set_Fragment (u : URL) (f : string) : URL :=
  mkURL (Scheme u) (Opaque u) (User u) (Host u) (Path u) (RawPath u)
        (ForceQuery u) (RawQuery u) f (RawFragment u).

(** [u.RawQuery = q] *)
Definition set_RawQuery (u : URL) (q : string) : URL :=
  mkURL (Scheme u) (Opaque u) (User u) (Host u) (Path u) (RawPath u)
        (ForceQuery u) q (Fragment u) (RawFragment u).

(** [url.Values], a [map[string][]string]. *)
Abbreviation Values := (gmap string (list string)).

(** [v.Add(key, value)]: [v[key] = append(v[key], value)]. *)
Definition Add (v : Values) (key value : string) : Values :=
  <[key := (default [] (v !! key) ++ [value])%list]> v.

Definition in_range (lo hi c : ascii) : bool :=
  (nat_of_ascii lo <=? nat_of_ascii c)%nat && (nat_of_ascii c <=? nat_of_ascii hi)%nat.

Definition is_alnum (c : ascii) : bool :=
  in_range "a" "z" c || in_range "A" "Z" c || in_range "0" "9" c.

(** [shouldEscape(c, encodeQueryComponent)] *)
Definition shouldEscape (c : ascii) : bool :=
  if is_alnum c then false
  else if existsb (Ascii.eqb c) ["-"; "_"; "."; "~"]%char then false
  else true.

Definition upperhex (n : nat) : ascii :=
  nth n (list_ascii_of_string "0123456789ABCDEF") "0"%char.

Definition ishex (c : ascii) : bool :=
  in_range "0" "9" c || in_range "a" "f" c || in_range "A" "F" c.

Definition unhex (c : ascii) : nat :=
  if in_range "0" "9" c then nat_of_ascii c - nat_of_ascii "0"
  else if in_range "a" "f" c then nat_of_ascii c - nat_of_ascii "a" + 10
  else if in_range "A" "F" c then nat_of_ascii c - nat_of_ascii "A" + 10
  else 0.

(** [url.QueryEscape] *)
Fixpoint QueryEscape (s : string) : string :=
  match s with
  | EmptyString => EmptyString
  | String c rest =>
      if Ascii.eqb c " " then String "+" (QueryEscape rest)
      else if shouldEscape c then
        String "%" (String (upperhex (nat_of_ascii c / 16))
                   (String (upperhex (nat_of_ascii c mod 16)) (QueryEscape rest)))
      else String c (QueryEscape rest)
  end.

(** [url.QueryUnescape]; [None] stands for its [EscapeError]. *)
Fixpoint QueryUnescape (s : string) : option string :=
  match s with
  | EmptyString => Some EmptyString
  | String "%" (String h (String l rest)) =>
      if ishex h && ishex l then
        option_map (String (ascii_of_nat (unhex h * 16 + unhex l))) (QueryUnescape rest)
      else None
  | String "%" _ => None
  | String "+" rest => option_map (String " ") (QueryUnescape rest)
  | String c rest => option_map (String c) (QueryUnescape rest)
  end.

(** [strings.Cut(s, sep)] for a one-byte separator: the text before the
    first [sep] and the text after it ([None] when [sep] is absent). *)
Fixpoint Cut (sep : ascii) (s : string) : string * option string :=
  match s with
  | EmptyString => (EmptyString, None)
  | String c rest =>
      if Ascii.eqb c sep then (EmptyString, Some rest)
      else let '(before, after) := Cut sep rest in (String c before, after)
  end.

(** The [&]-separated pieces [parseQuery] visits, in order. *)
Fixpoint pieces (fuel : nat) (query : string) : list string :=
  match fuel with
  | O => []
  | S fuel' =>
      match query with
      | EmptyString => []
      | _ => let '(key, rest) := Cut "&" query in
             key :: pieces fuel' (default EmptyString rest)
      end
  end.

Definition Contains (c : ascii) (s : string) : bool :=
  existsb (Ascii.eqb c) (list_ascii_of_string s).

(** One iteration of the loop of [parseQuery]: a piece with a semicolon,
    an empty piece or a bad escape is skipped. *)
Definition parsePiece (m : Values) (piece : string) : Values :=
  if Contains ";" piece then m
  else if String.eqb piece "" then m
  else
    let '(key, value) := Cut "=" piece in
    match QueryUnescape key, QueryUnescape (default EmptyString value) with
    | Some k, Some v => Add m k v
    | _, _ => m
    end.

(** [url.ParseQuery], with its error dropped as [URL.Query] does. *)
Definition ParseQuery (query : string) : Values :=
  fold_left parsePiece (pieces (String.length query) query) ∅.

(** [u.Query()]: a map freshly parsed from [u.RawQuery] on every call. *)
Definition Query (u : URL) : Values := ParseQuery (RawQuery u).

(** Byte-wise lexical order, the order of [sort.Strings]. *)
Definition string_le (a b : string) : Prop := String.leb a b = true.

#[global] Instance string_le_dec : RelDecision string_le :=
  λ a b, decide (String.leb a b = true).

Definition sorted_keys (v : Values) : list string :=
  merge_sort string_le (map fst (map_to_list v)).

Definition join (sep : string) (l : list string) : string :=
  match l with
  | [] => ""
  | x :: xs => fold_left (λ acc y, acc ++ sep ++ y) xs x
  end.

(** [v.Encode()]: [key=value] pairs, keys sorted, joined by [&]. *)
Definition Encode (v : Values) : string :=
  join "&"
    (flat_map (λ k,
       map (λ x, QueryEscape k ++ "=" ++ QueryEscape x) (default [] (v !! k)))
       (sorted_keys v)).

End url.

(** [strings.ToLower] on the ASCII letters.  For the comparison with
    ["content-type"] this is exact: no rune outside ASCII lower-cases to one
    of its letters. *)
Definition lower_ascii (c : ascii) : ascii :=
  if url.in_range "A" "Z" c then ascii_of_nat (nat_of_ascii c + 32) else c.

Fixpoint ToLower (s : string) : string :=
  match s with
  | EmptyString => EmptyString
  | String c rest => String (lower_ascii c) (ToLower rest)
  end.

(** ** Data model *)

(** [client.ObjectKey] *)
Record ObjectKey : Set := mkObjectKey { key_Namespace : string; key_Name : string }.

(** [ObjectKey.String()] *)
Definition ObjectKey_String (k : ObjectKey) : string :=
  key_Namespace k ++ "/" ++ key_Name k.

(** [natunApi.ResourceReference] *)
Record ResourceReference : Set := mkRef { ref_Name : string; ref_Namespace : string }.

Definition ref_ObjectKey (r : ResourceReference) : ObjectKey :=
  mkObjectKey (ref_Namespace r) (ref_Name r).

(** The source definition delivered by a notification: [Spec.Kind], the
    namespace and name, the configuration blob and [Status.Features]. *)
Record DataSource : Set := mkDataSource {
  ds_Kind : string;
  ds_Namespace : string;
  ds_Name : string;
  ds_Config : string;
  ds_Features : list ResourceReference;
}.

(** The feature object of the metadata store: [Spec.Builder.Raw] and the
    value of its [FQN()] method. *)
Record FeatureObject : Set := mkFeatureObject { fo_Raw : string; fo_FQN : string }.

(** [Feature] (the embedded [FeatureBuilderKind] contributes [Kind]). *)
Record Feature : Set := mkFeature {
  Kind : string;
  FQN : string;
  Schema : string;
  Expression : string;
  programSha1 : string;
}.

Definition set_FQN (ft : Feature) (v : string) : Feature :=
  mkFeature (Kind ft) v (Schema ft) (Expression ft) (programSha1 ft).
Definition set_Schema (ft : Feature) (v : string) : Feature :=
  mkFeature (Kind ft) (FQN ft) v (Expression ft) (programSha1 ft).
Definition set_programSha1 (ft : Feature) (v : string) : Feature :=
  mkFeature (Kind ft) (FQN ft) (Schema ft) (Expression ft) v.

(** [pubsub.Message]; [Metadata] lists the map in the order [range] visits
    it. *)
Record Message : Set := mkMessage {
  LoggableID : string;
  Body : string;
  Metadata : list (string * string);
  Nackable : bool;
}.

(** [brokers.Metadata] *)
Record BrokerMetadata : Set := mkMetadata { md_ID : string; md_Timestamp : Z; md_Topic : string }.

(** [BaseStreaming]; a nil [Schema] is [None], a nil entry of [features] is
    [None], and [subscription] names the scope the handle is bound to. *)
Record BaseStreaming : Type := mkBaseStreaming {
  BrokerKind : string;
  Workers : Z;
  bs_Schema : option url.URL;
  subscription : option nat;
  mdExtractor : option (Message -> BrokerMetadata);
  features : list (option Feature);
}.

Definition set_Workers (bs : BaseStreaming) (n : Z) : BaseStreaming :=
  mkBaseStreaming (BrokerKind bs) n (bs_Schema bs) (subscription bs) (mdExtractor bs) (features bs).
Definition set_mdExtractor (bs : BaseStreaming) (f : Message -> BrokerMetadata) : BaseStreaming :=
  mkBaseStreaming (BrokerKind bs) (Workers bs) (bs_Schema bs) (subscription bs) (Some f) (features bs).
Definition set_subscription (bs : BaseStreaming) (s : option nat) : BaseStreaming :=
  mkBaseStreaming (BrokerKind bs) (Workers bs) (bs_Schema bs) s (mdExtractor bs) (features bs).
Definition set_features (bs : BaseStreaming) (fs : list (option Feature)) : BaseStreaming :=
  mkBaseStreaming (BrokerKind bs) (Workers bs) (bs_Schema bs) (subscription bs) (mdExtractor bs) fs.

(** *** Runtime RPC messages *)

Record RegisterSchemaRequest : Set := mkRegisterSchemaRequest { rs_Uuid : string; rs_Schema : string }.
Record RegisterSchemaResponse : Set := mkRegisterSchemaResponse { rsr_Uuid : string }.
Record LoadPyExpProgramRequest : Set := mkLoadPyExpProgramRequest { lp_Uuid : string; lp_Program : string }.
Record LoadPyExpProgramResponse : Set :=
  mkLoadPyExpProgramResponse { lpr_Uuid : string; lpr_ProgramSha1 : string }.

(** The event envelope built by [handle]; [ce_headers] is the ["headers"]
    extension. *)
Record CloudEvent : Set := mkCloudEvent {
  ce_ID : string;
  ce_Source : string;
  ce_Time : Z;
  ce_DataSchema : string;
  ce_Subject : string;
  ce_headers : url.URL;
  ce_DataContentType : string;
  ce_Data : string;
}.

(** [anypb.Any] *)
Record Any : Set := mkAny { TypeUrl : string; Value : string }.

Record ExecutePyExpRequest : Set := mkExecutePyExpRequest {
  ex_Uuid : string;
  ex_Fqn : string;
  ex_ProgramSha1 : string;
  ex_EntityId : option string;
  ex_Data : Any;
}.
Record ExecutePyExpResponse : Set := mkExecutePyExpResponse { exr_Uuid : string }.

(** ** Observable events *)

(** Everything the package does to the outside world, with the answer it
    got. *)
Inductive Event : Type :=
| EvNewUUID (id : string)
| EvRegisterSchema (req : RegisterSchemaRequest) (r : RegisterSchemaResponse + error)
| EvLoadPyExpProgram (req : LoadPyExpProgramRequest) (r : LoadPyExpProgramResponse + error)
| EvExecutePyExp (req : ExecutePyExpRequest) (r : ExecutePyExpResponse + error)
| EvGet (key : ObjectKey) (r : FeatureObject + error)
| EvParseConfig (src : DataSource) (err : option error)
| EvSubscribe (scope : nat) (kind : string) (err : option error)
| EvShutdown (scope : nat) (err : option error)
| EvReceive (scope : nat) (r : Message + error)
| EvAck (msg : Message)
| EvNack (msg : Message)
| EvLogError (err : error) (msg : string)
| EvLogInfo (msg : string).

Abbreviation Trace := (list Event).

Definition is_RegisterSchema (e : Event) : bool :=
  match e with EvRegisterSchema _ _ => true | _ => false end.
Definition is_LoadPyExpProgram (e : Event) : bool :=
  match e with EvLoadPyExpProgram _ _ => true | _ => false end.
Definition is_ExecutePyExp (e : Event) : bool :=
  match e with EvExecutePyExp _ _ => true | _ => false end.
Definition is_Subscribe (e : Event) : bool :=
  match e with EvSubscribe _ _ _ => true | _ => false end.
Definition is_Ack (e : Event) : bool :=
  match e with EvAck _ => true | _ => false end.
Definition is_Nack (e : Event) : bool :=
  match e with EvNack _ => true | _ => false end.

(** Number of events of one kind in a trace. *)
Definition calls (p : Event -> bool) (t : Trace) : nat := length (List.filter p t).

(** ** Collaborators *)

(** [map[string]string] configuration as [ParseConfig] returns it. *)
Abbreviation ParsedConfig := (gmap string string).

(** A registered broker: [Subscribe] (here: whether it fails) and the
    metadata extractor. *)
Record Broker : Type := mkBroker {
  Subscribe : Trace -> DataSource -> ParsedConfig -> option error;
  ExtractMetadata : Message -> BrokerMetadata;
}.

(** The outside world.  A remote call answers as a function of the request
    and of the trace so far, so an answer may depend on how many calls of
    any kind came before; decoders are pure. *)
Record Env : Type := mkEnv {
  uuid_New : Trace -> string;
  RegisterSchema : Trace -> RegisterSchemaRequest -> RegisterSchemaResponse + error;
  LoadPyExpProgram : Trace -> LoadPyExpProgramRequest -> LoadPyExpProgramResponse + error;
  ExecutePyExp : Trace -> ExecutePyExpRequest -> ExecutePyExpResponse + error;
  client_Get : Trace -> ObjectKey -> FeatureObject + error;
  (** [json.Unmarshal] into a [Feature]: kind, schema and expression. *)
  json_Unmarshal : string -> (string * string * string) + error;
  url_Parse : string -> url.URL + error;
  URL_String : url.URL -> string;
  ParseConfig : Trace -> DataSource -> ParsedConfig * option error;
  (** [cfg.Unmarshal(&bs)]: broker kind, workers and schema. *)
  cfg_Unmarshal : ParsedConfig -> (string * Z * option url.URL) + error;
  brokers_Get : string -> option Broker;
  Receive : Trace -> nat -> Message + error;
  Shutdown : Trace -> nat -> option error;
  SetData : CloudEvent -> string -> string -> CloudEvent + error;
  ToProto : CloudEvent -> CloudEvent + error;
  anypb_New : CloudEvent -> Any + error;
}.

(** ** State *)

(** What became of the teardown task [Add] starts after a successful
    [Subscribe]. *)
Inductive Teardown : Set := NotStarted | Waiting | Finished.

(** A cancellation scope made by [context.WithCancel] in [Add], with the
    tasks that hang on it.  [sc_bs] is the generation's [BaseStreaming],
    whose features all its workers share. *)
Record Scope : Type := mkScope {
  cancelled : bool;
  teardown : Teardown;
  workers : nat;
  sc_bs : option BaseStreaming;
}.

(** The manager's fields, the scopes and the trace.  [m_cancel] holds the
    index of the scope whose cancel function is stored in [m.cancel];
    [m_conn] is the source key [handle] prints into the envelope. *)
Record State : Type := mkState {
  m_cancel : option nat;
  m_bs : option BaseStreaming;
  m_ready : bool;
  m_conn : ObjectKey;
  scopes : list Scope;
  trace : Trace;
}.

Definition set_m_cancel (s : State) (c : option nat) : State :=
  mkState c (m_bs s) (m_ready s) (m_conn s) (scopes s) (trace s).
Definition set_m_bs (s : State) (b : option BaseStreaming) : State :=
  mkState (m_cancel s) b (m_ready s) (m_conn s) (scopes s) (trace s).
Definition set_m_ready (s : State) (r : bool) : State :=
  mkState (m_cancel s) (m_bs s) r (m_conn s) (scopes s) (trace s).
Definition set_scopes (s : State) (l : list Scope) : State :=
  mkState (m_cancel s) (m_bs s) (m_ready s) (m_conn s) l (trace s).
Definition set_trace (s : State) (t : Trace) : State :=
  mkState (m_cancel s) (m_bs s) (m_ready s) (m_conn s) (scopes s) t.

Definition initial (conn : ObjectKey) : State :=
  mkState None None false conn [] [].

(** ** The computation monad *)

Inductive result (A : Type) : Type :=
| Ret (a : A)
| Panic (reason : string)
| OutOfFuel.
Arguments Ret {A} a.
Arguments Panic {A} reason.
Arguments OutOfFuel {A}.

Definition M (A : Type) : Type := State -> result A * State.

Definition ret {A} (a : A) : M A := λ s, (Ret a, s).

Definition bind {A B} (m : M A) (k : A -> M B) : M B :=
  λ s, match m s with
       | (Ret a, s') => k a s'
       | (Panic r, s') => (Panic r, s')
       | (OutOfFuel, s') => (OutOfFuel, s')
       end.

Definition panic {A} (reason : string) : M A := λ s, (Panic reason, s).
Definition out_of_fuel {A} : M A := λ s, (OutOfFuel, s).

Declare Scope go_scope.
Delimit Scope go_scope with go.
Notation "x <- m ;; k" := (bind m (λ x, k))
  (at level 100, m at next level, right associativity) : go_scope.
Notation "m ;; k" := (bind m (λ _, k))
  (at level 100, right associativity) : go_scope.
Local Open Scope go_scope.

Definition get_state : M State := λ s, (Ret s, s).
Definition modify (f : State -> State) : M unit := λ s, (Ret tt, f s).

(** Append one event to the trace. *)
Definition emit (e : Event) : M unit :=
  modify (λ s, set_trace s (trace s ++ [e])%list).

(** [m.logger.Error(err, msg)] and [m.logger.Info(msg)] *)
Definition logError (err : error) (msg : string) : M unit := emit (EvLogError err msg).
Definition logInfo (msg : string) : M unit := emit (EvLogInfo msg).

(** A nil-pointer dereference. *)
Definition nil_dereference {A} : M A :=
  panic "invalid memory address or nil pointer dereference".

(** ** The package *)

Section Manager.
Context (env : Env).

(** *** Calls to the outside world *)

(** [newUUID] *)
Definition newUUID : M string :=
  s <- get_state ;;
  let id := uuid_New env (trace s) in
  emit (EvNewUUID id) ;;
  ret id.

Definition runtime_RegisterSchema (req : RegisterSchemaRequest)
  : M (RegisterSchemaResponse + error) :=
  s <- get_state ;;
  let r := RegisterSchema env (trace s) req in
  emit (EvRegisterSchema req r) ;;
  ret r.

Definition runtime_LoadPyExpProgram (req : LoadPyExpProgramRequest)
  : M (LoadPyExpProgramResponse + error) :=
  s <- get_state ;;
  let r := LoadPyExpProgram env (trace s) req in
  emit (EvLoadPyExpProgram req r) ;;
  ret r.

Definition runtime_ExecutePyExp (req : ExecutePyExpRequest)
  : M (ExecutePyExpResponse + error) :=
  s <- get_state ;;
  let r := ExecutePyExp env (trace s) req in
  emit (EvExecutePyExp req r) ;;
  ret r.

Definition store_Get (key : ObjectKey) : M (FeatureObject + error) :=
  s <- get_state ;;
  let r := client_Get env (trace s) key in
  emit (EvGet key r) ;;
  ret r.

Definition source_ParseConfig (src : DataSource) : M (ParsedConfig * option error) :=
  s <- get_state ;;
  let r := ParseConfig env (trace s) src in
  emit (EvParseConfig src (snd r)) ;;
  ret r.

Definition broker_Subscribe (b : Broker) (kind : string) (g : nat)
    (src : DataSource) (cfg : ParsedConfig) : M (option error) :=
  s <- get_state ;;
  let r := Subscribe b (trace s) src cfg in
  emit (EvSubscribe g kind r) ;;
  ret r.

Definition subscription_Receive (g : nat) : M (Message + error) :=
  s <- get_state ;;
  let r := Receive env (trace s) g in
  emit (EvReceive g r) ;;
  ret r.

Definition subscription_Shutdown (g : nat) : M (option error) :=
  s <- get_state ;;
  let r := Shutdown env (trace s) g in
  emit (EvShutdown g r) ;;
  ret r.

(** *** Cancellation scopes *)

(** [context.WithCancel(context.Background())]: a new scope; the result
    is its index. *)
Definition WithCancel : M nat :=
  s <- get_state ;;
  modify (λ s, set_scopes s (scopes s ++ [mkScope false NotStarted 0 None])%list) ;;
  ret (length (scopes s)).

Definition update_scope (g : nat) (f : Scope -> Scope) : M unit :=
  modify (λ s, set_scopes s (alter f g (scopes s))).

(** Calling the cancel function of scope [g]. *)
Definition cancel (g : nat) : M unit :=
  update_scope g (λ sc, mkScope true (teardown sc) (workers sc) (sc_bs sc)).

(** *** RPC wrappers *)

Definition registerSchema (schema : string) : M (option error) :=
  uuid <- newUUID ;;
  r <- runtime_RegisterSchema (mkRegisterSchemaRequest uuid schema) ;;
  match r with
  | inr err => ret (Some (wrapError "failed to register schema: %w" err))
  | inl resp =>
      if negb (String.eqb (rsr_Uuid resp) uuid)
      then ret (Some (errorString "failed to register schema: unexpected uuid"))
      else ret None
  end.

(** The feature is passed by pointer in the source; the result carries
    the feature as the call leaves it. *)
Definition registerProgram (ft : Feature) : M (Feature * option error) :=
  uuid <- newUUID ;;
  r <- runtime_LoadPyExpProgram (mkLoadPyExpProgramRequest uuid (Expression ft)) ;;
  match r with
  | inr err => ret (ft, Some (wrapError "failed to register program: %w" err))
  | inl resp =>
      if negb (String.eqb (lpr_Uuid resp) uuid)
      then ret (ft, Some (errorString "failed to register program: unexpected uuid"))
      else ret (set_programSha1 ft (lpr_ProgramSha1 resp), None)
  end.

(** *** Feature resolver *)

(** [u.Scheme != "" && u.Host != "" && u.Fragment != ""] *)
Definition fully_qualified (u : url.URL) : bool :=
  negb (String.eqb (url.Scheme u) "") && negb (String.eqb (url.Host u) "")
  && negb (String.eqb (url.Fragment u) "").

(** [u.Scheme == bs.Schema.Scheme && u.Host == bs.Schema.Host] *)
Definition same_origin (u src : url.URL) : bool :=
  String.eqb (url.Scheme u) (url.Scheme src) && String.eqb (url.Host u) (url.Host src).

Definition getFeature (ref : ResourceReference) (bs : BaseStreaming)
  : M (option Feature * option error) :=
  r <- store_Get (ref_ObjectKey ref) ;;
  match r with
  | inr err => ret (None, Some (wrapError "failed to fetch feature definition: %w" err))
  | inl ftSpec =>
    match json_Unmarshal env (fo_Raw ftSpec) with
    | inr err => ret (None, Some (wrapError "failed to unmarshal feature definition: %w" err))
    | inl (kind, schema, expression) =>
      let ft := mkFeature kind "" schema expression "" in
      if negb (String.eqb (Kind ft) "streaming") then
        ret (None, Some (errorString
               ("feature definition kind is not supported: " ++ Kind ft)))
      else
        let ft := set_FQN ft (fo_FQN ftSpec) in
        let finish (ft : Feature) : M (option Feature * option error) :=
          p <- registerProgram ft ;; ret (Some (fst p), snd p) in
        let as_fragment : M (option Feature * option error) :=
          match bs_Schema bs with
          | None => nil_dereference
          | Some src =>
              finish (set_Schema ft (URL_String env (url.set_Fragment src (Schema ft))))
          end in
        if negb (String.eqb (Schema ft) "") then
          match url_Parse env (Schema ft) with
          | inl u =>
              if fully_qualified u then
                match bs_Schema bs with
                | None => nil_dereference
                | Some src =>
                    if negb (same_origin u src) then
                      e <- registerSchema (Schema ft) ;;
                      match e with
                      | Some err =>
                          ret (None, Some (wrapError "failed to register schema: %w" err))
                      | None => finish ft
                      end
                    else finish ft
                end
              else as_fragment
          | inr _ => as_fragment
          end
        else
          match bs_Schema bs with
          | None => nil_dereference
          | Some src => finish (set_Schema ft (URL_String env src))
          end
    end
  end.

(** The [for _, ref := range in.Status.Features] loop. *)
Fixpoint getFeatureDefinitions_range (src : DataSource) (bsc : BaseStreaming)
    (refs : list ResourceReference) (features : list (option Feature))
  : M (list (option Feature)) :=
  match refs with
  | [] => ret features
  | ref :: rest =>
      logInfo ("fetching feature definition: " ++ ref_Name ref) ;;
      let ref := if String.eqb (ref_Namespace ref) ""
                 then mkRef (ref_Name ref) (ds_Namespace src) else ref in
      p <- getFeature ref bsc ;;
      match snd p with
      | Some err => logError err "failed to fetch feature"
      | None => ret tt
      end ;;
      getFeatureDefinitions_range src bsc rest (features ++ [fst p])%list
  end.

Definition getFeatureDefinitions (src : DataSource) (bsc : BaseStreaming)
  : M (list (option Feature)) :=
  logInfo "fetching feature definitions..." ;;
  getFeatureDefinitions_range src bsc (ds_Features src) [].

(** *** Execution pipeline *)

(** Lines 347-356 of [handle]: the content type and the URL that becomes
    the ["headers"] extension.  [u.Query()] builds a new map from
    [u.RawQuery] on each call, [Add] changes that map, and the map is
    dropped at the end of the statement. *)
Definition headers (metadata : list (string * string)) : string * url.URL :=
  let '(contentType, u) :=
    fold_left
      (λ (acc : string * url.URL) (kv : string * string),
         let '(contentType, u) := acc in
         let '(k, v) := kv in
         let contentType :=
           if String.eqb (ToLower k) "content-type" then v else contentType in
         let dropped := url.Add (url.Query u) k v in
         (contentType, u))
      metadata ("", url.zero) in
  (contentType, url.set_RawQuery u (url.Encode (url.Query u))).

(** The block from the label [exec] to the end of the loop body.  A
    backward [goto] spends one unit of [fuel]. *)
Fixpoint execute (fuel : nat) (tries : Z) (req : ExecutePyExpRequest) (ft : Feature)
  : M (Feature * option error) :=
  r <- runtime_ExecutePyExp req ;;
  match r with
  | inr err =>
      if codes.eqb (status.Code err) codes.NotFound then
        p <- registerProgram ft ;;
        match snd p with
        | Some err' => ret (fst p, Some (wrapError "failed to register program: %w" err'))
        | None =>
            if (tries <? 3)%Z then
              match fuel with
              | O => out_of_fuel
              | S fuel' => execute fuel' (tries + 1)%Z req (fst p)
              end
            else ret (fst p, Some (wrapError "failed to execute program: %w" err))
        end
      else ret (ft, Some (wrapError "failed to execute program: %w" err))
  | inl resp =>
      if negb (String.eqb (exr_Uuid resp) (ex_Uuid req))
      then ret (ft, Some (errorString "failed to execute program: unexpected uuid"))
      else ret (ft, None)
  end.

(** The body of the loop of [handle] for one non-nil feature. *)
Definition handle_feature (fuel : nat) (msg : Message) (md : BrokerMetadata)
    (ft : Feature) : M (Feature * option error) :=
  s <- get_state ;;
  let '(contentType, u) := headers (Metadata msg) in
  let ev := mkCloudEvent (md_ID md) (ObjectKey_String (m_conn s)) (md_Timestamp md)
                         (Schema ft) (md_Topic md) u "" "" in
  match SetData env ev contentType (Body msg) with
  | inr err => ret (ft, Some (wrapError "failed to set data: %w" err))
  | inl ev =>
    match ToProto env ev with
    | inr err => ret (ft, Some (wrapError "failed to convert event to protobuf: %w" err))
    | inl pb =>
      match anypb_New env pb with
      | inr err => ret (ft, Some (wrapError "failed to create anypb: %w" err))
      | inl data =>
          uuid <- newUUID ;;
          execute fuel 1%Z (mkExecutePyExpRequest uuid (FQN ft) (programSha1 ft) None data) ft
      end
    end
  end.

(** [for _, ft := range bs.features]: [done] are the features already
    served, as the calls left them. *)
Fixpoint handle_range (fuel : nat) (msg : Message) (md : BrokerMetadata)
    (done todo : list (option Feature)) : M (list (option Feature) * option error) :=
  match todo with
  | [] => ret (done, None)
  | None :: _ => nil_dereference
  | Some ft :: rest =>
      p <- handle_feature fuel msg md ft ;;
      match snd p with
      | Some err => ret ((done ++ Some (fst p) :: rest)%list, Some err)
      | None => handle_range fuel msg md (done ++ [Some (fst p)])%list rest
      end
  end.

(** [handle]; the features are returned as the pipeline leaves them. *)
Definition handle (fuel : nat) (msg : Message) (md : BrokerMetadata) (bs : BaseStreaming)
  : M (list (option Feature) * option error) :=
  handle_range fuel msg md [] (features bs).

(** *** Consumer loop *)

(** Lines 204-212 of [subscribe]: what a worker does with a received
    message. *)
Definition consume (fuel : nat) (bs : BaseStreaming) (msg : Message) : M BaseStreaming :=
  match mdExtractor bs with
  | None => nil_dereference
  | Some extract =>
      let md := extract msg in
      p <- handle fuel msg md bs ;;
      match snd p with
      | Some err =>
          (if Nackable msg then emit (EvNack msg) else ret tt) ;;
          logError err "failed to handle message"
      | None => ret tt
      end ;;
      emit (EvAck msg) ;;
      ret (set_features bs (fst p))
  end.

Inductive LoopStatus : Set := Continue | Return.

(** One turn of the [for] loop of a worker of scope [g]. *)
Definition worker_turn (fuel : nat) (g : nat) : M LoopStatus :=
  s <- get_state ;;
  match scopes s !! g with
  | None => ret Return
  | Some sc =>
      if cancelled sc then ret Return
      else
        r <- subscription_Receive g ;;
        match r with
        | inr err => logError err "failed to receive message" ;; ret Return
        | inl msg =>
            match sc_bs sc with
            | None => nil_dereference
            | Some bs =>
                bs' <- consume fuel bs msg ;;
                update_scope g (λ sc, mkScope (cancelled sc) (teardown sc) (workers sc) (Some bs')) ;;
                ret Continue
            end
        end
  end.

(** [subscribe]: [bs.Workers] tasks start on scope [g] and share [bs]. *)
Definition subscribe (g : nat) (bs : BaseStreaming) : M unit :=
  update_scope g (λ sc, mkScope (cancelled sc) (teardown sc) (Z.to_nat (Workers bs)) (Some bs)).

(** *** Source controller *)

Definition Add (src : DataSource) : M unit :=
  modify (λ s, set_m_ready s false) ;;
  if negb (String.eqb (ds_Kind src) "streaming") then
    logError (errorString ("unsupported DataConenctor kind: " ++ ds_Kind src))
             "kind is not streaming"
  else
    p <- source_ParseConfig src ;;
    let cfg := fst p in
    match snd p with
    | Some err => logError err "failed to retrieve config"
    | None => ret tt
    end ;;
    match cfg_Unmarshal env cfg with
    | inr err => logError err "failed to unmarshal streaming config"
    | inl (kind, n, schema) =>
      let bs := mkBaseStreaming kind n schema None None [] in
      let bs := if (Workers bs =? 0)%Z then set_Workers bs 1 else bs in
      e <- match bs_Schema bs with
           | Some u => registerSchema (URL_String env u)
           | None => ret None
           end ;;
      match e with
      | Some err => logError err "failed to register schema"
      | None =>
        match brokers_Get env (BrokerKind bs) with
        | None =>
            logError (errorString ("broker " ++ BrokerKind bs ++ " not found"))
                     "invalid broker kind"
        | Some broker =>
          let bs := set_mdExtractor bs (ExtractMetadata broker) in
          g <- WithCancel ;;
          modify (λ s, set_m_cancel s (Some g)) ;;
          e <- broker_Subscribe broker (BrokerKind bs) g src cfg ;;
          match e with
          | Some err => logError err "failed to create subscription"
          | None =>
            let bs := set_subscription bs (Some g) in
            update_scope g (λ sc, mkScope (cancelled sc) Waiting (workers sc) (sc_bs sc)) ;;
            fs <- getFeatureDefinitions src bs ;;
            let bs := set_features bs fs in
            subscribe g bs ;;
            modify (λ s, set_m_ready s true) ;;
            modify (λ s, set_m_bs s (Some bs)) ;;
            logInfo "Listening for streaming events..."
          end
        end
      end
    end.

Definition Update (old src : DataSource) : M unit :=
  s <- get_state ;;
  match m_cancel s with
  | Some g => cancel g ;; modify (λ s, set_m_bs s None)
  | None => ret tt
  end ;;
  Add src.

(** The task started at line 166, from the moment its scope is done:
    shut the subscription down, then [m.cancel = nil]. *)
Definition teardown_task (g : nat) : M unit :=
  e <- subscription_Shutdown g ;;
  match e with
  | Some err => logError err "failed to shutdown streaming"
  | None => ret tt
  end ;;
  modify (λ s, set_m_cancel s None) ;;
  update_scope g (λ sc, mkScope (cancelled sc) Finished (workers sc) (sc_bs sc)).

(** [DeleteFunc] and the task of [Start] it wakes: the stored cancel
    function, if any, is called. *)
Definition Delete : M unit :=
  logInfo "DataSource deleted. Gracefully closing..." ;;
  s <- get_state ;;
  match m_cancel s with
  | Some g => cancel g
  | None => ret tt
  end.

(** A worker that left its loop. *)
Definition worker_exit (g : nat) : M unit :=
  update_scope g (λ sc, mkScope (cancelled sc) (teardown sc) (pred (workers sc)) (sc_bs sc)).

(** *** The tasks side by side *)

(** What can happen next: a notification is served, the teardown task of
    a cancelled scope runs, or a worker takes one turn. *)
Inductive Action : Set :=
| OnAdd (src : DataSource)
| OnUpdate (old src : DataSource)
| OnDelete
| RunTeardown (g : nat)
| RunWorker (g : nat).

Definition enabled (a : Action) (s : State) : bool :=
  match a with
  | OnAdd _ | OnUpdate _ _ | OnDelete => true
  | RunTeardown g =>
      match scopes s !! g with
      | Some sc => cancelled sc && match teardown sc with Waiting => true | _ => false end
      | None => false
      end
  | RunWorker g =>
      match scopes s !! g with
      | Some sc => (0 <? workers sc)%nat
      | None => false
      end
  end.

Definition perform (fuel : nat) (a : Action) : M unit :=
  match a with
  | OnAdd src => Add src
  | OnUpdate old src => Update old src
  | OnDelete => Delete
  | RunTeardown g => teardown_task g
  | RunWorker g =>
      st <- worker_turn fuel g ;;
      match st with
      | Continue => ret tt
      | Return => worker_exit g
      end
  end.

(** One step of the whole program. *)
Inductive step (fuel : nat) (s : State) (a : Action) (s' : State) : Prop :=
| step_perform : enabled a s = true -> perform fuel a s = (Ret tt, s') -> step fuel s a s'.

(** A schedule of steps. *)
Inductive steps (fuel : nat) : State -> list Action -> State -> Prop :=
| steps_done s : steps fuel s [] s
| steps_next s a s1 rest s2 :
    step fuel s a s1 -> steps fuel s1 rest s2 -> steps fuel s (a :: rest) s2.

(** A schedule run from [s]; [None] when an action is not enabled or does
    not return. *)
Fixpoint run (fuel : nat) (schedule : list Action) (s : State) : option State :=
  match schedule with
  | [] => Some s
  | a :: rest =>
      if enabled a s then
        match perform fuel a s with
        | (Ret _, s') => run fuel rest s'
        | _ => None
        end
      else None
  end.

(** A scope whose workers have been started and that has not been
    cancelled. *)
Definition live (sc : Scope) : bool := negb (cancelled sc) && (0 <? workers sc)%nat.

Definition live_scopes (s : State) : nat := length (List.filter live (scopes s)).
End Manager.

Arguments step_perform {env fuel s a s'}.

(** ** A small world for examples

    A runtime that echoes correlation ids, a metadata store with two
    features, one broker kind, and a URL reader and printer for plain
    [scheme://host/path?query#fragment] texts without escapes. *)

Module demo.

Definition is_scheme_char (first : bool) (c : ascii) : bool :=
  url.in_range "a" "z" c || url.in_range "A" "Z" c
  || (negb first && (url.in_range "0" "9" c
                     || existsb (Ascii.eqb c) ["+"; "-"; "."]%char)).

(** [getScheme]: the text before the first colon when it is a scheme. *)
Fixpoint getScheme (first : bool) (s : string) : option (string * string) :=
  match s with
  | EmptyString => None
  | String c rest =>
      if Ascii.eqb c ":" then (if first then None else Some (EmptyString, rest))
      else if is_scheme_char first c then
        match getScheme false rest with
        | Some (sch, path) => Some (String c sch, path)
        | None => None
        end
      else None
  end.

Definition Parse (rawURL : string) : url.URL + error :=
  let '(body, frag) := url.Cut "#" rawURL in
  let '(scheme, rest) := default (EmptyString, body) (getScheme true body) in
  let '(rest, query) := url.Cut "?" rest in
  let '(host, path) :=
    match rest with
    | String "/" (String "/" authority) =>
        let '(h, p) := url.Cut "/" authority in
        (h, match p with Some p => String "/" p | None => EmptyString end)
    | _ => (EmptyString, rest)
    end in
  inl (url.mkURL (ToLower scheme) "" None host path "" false
                 (default EmptyString query) (default EmptyString frag) "").

Definition String (u : url.URL) : string :=
  (if String.eqb (url.Scheme u) "" then "" else url.Scheme u ++ ":")
  ++ (if String.eqb (url.Host u) "" then "" else "//" ++ url.Host u)
  ++ url.Path u
  ++ (if String.eqb (url.RawQuery u) "" then "" else "?" ++ url.RawQuery u)
  ++ (if String.eqb (url.Fragment u) "" then "" else "#" ++ url.Fragment u).

Definition not_found : error := statusError codes.NotFound "program not found".

Definition echo (req : ExecutePyExpRequest) : ExecutePyExpResponse + error :=
  inl (mkExecutePyExpResponse (ex_Uuid req)).

(** The store: feature [clicks] is a streaming feature, [batchy] is not,
    [broken] does not decode, anything else is absent. *)
Definition Get (key : ObjectKey) : FeatureObject + error :=
  if String.eqb (key_Name key) "clicks" then inl (mkFeatureObject "clicks.json" "clicks.default")
  else if String.eqb (key_Name key) "views" then inl (mkFeatureObject "views.json" "views.default")
  else if String.eqb (key_Name key) "foreign" then inl (mkFeatureObject "foreign.json" "foreign.default")
  else if String.eqb (key_Name key) "batchy" then inl (mkFeatureObject "batchy.json" "batchy.default")
  else if String.eqb (key_Name key) "broken" then inl (mkFeatureObject "{" "broken.default")
  else inr (errorString ("features " ++ key_Name key ++ " not found")).

Definition Unmarshal (raw : string) : (string * string * string) + error :=
  if String.eqb raw "clicks.json" then inl ("streaming", "", "count()")
  else if String.eqb raw "views.json" then inl ("streaming", "View", "sum()")
  else if String.eqb raw "foreign.json" then
    inl ("streaming", "https://other.example/schemas#Click", "max()")
  else if String.eqb raw "batchy.json" then inl ("batch", "", "avg()")
  else inr (errorString "unexpected end of JSON input").

(** The configuration blob of a source is its schema text; an empty blob
    means no schema. *)
Definition config (src : DataSource) : ParsedConfig :=
  <["kind" := "memory"]> (<["schema" := ds_Config src]> ∅).

Definition decode (cfg : ParsedConfig) : (string * Z * option url.URL) + error :=
  let schema := default "" (cfg !! "schema") in
  inl (default "" (cfg !! "kind"), 0%Z,
       if String.eqb schema "" then None
       else match Parse schema with inl u => Some u | inr _ => None end).

Definition memory : Broker :=
  mkBroker (λ _ _ _, None)
           (λ msg, mkMetadata (LoggableID msg) 0 "topic").

Definition any (ev : CloudEvent) : Any + error :=
  inl (mkAny "type.googleapis.com/io.cloudevents.v1.CloudEvent" (ce_Data ev)).

Definition data (ev : CloudEvent) (contentType body : string) : CloudEvent + error :=
  inl (mkCloudEvent (ce_ID ev) (ce_Source ev) (ce_Time ev) (ce_DataSchema ev)
                    (ce_Subject ev) (ce_headers ev) contentType body).

(** The world; [script] lists the answers to the first execution calls,
    every later call is echoed; registrations answer with [reply_id]
    applied to the id they were sent. *)
Definition world (script : list (ExecutePyExpRequest -> ExecutePyExpResponse + error))
    (reply_id : string -> string) : Env :=
  mkEnv
    (λ t, "uuid-" ++ NilEmpty.string_of_uint (Nat.to_uint (length t)))
    (λ _ req, inl (mkRegisterSchemaResponse (reply_id (rs_Uuid req))))
    (λ _ req, inl (mkLoadPyExpProgramResponse (reply_id (lp_Uuid req))
                                              ("sha1:" ++ lp_Program req)))
    (λ t req, nth (calls is_ExecutePyExp t) script echo req)
    (λ _ key, Get key)
    Unmarshal
    Parse
    String
    (λ _ src, (config src, None))
    decode
    (λ kind, if String.eqb kind "memory" then Some memory else None)
    (λ _ _, inr (errorString "subscription closed"))
    (λ _ _, None)
    data
    inl
    any.

(** A runtime that works. *)
Definition healthy : Env := world [] id.

Definition conn : ObjectKey := mkObjectKey "default" "orders".

Definition source (kind schema : string) (refs : list string) : DataSource :=
  mkDataSource kind "default" "orders" schema (map (λ n, mkRef n "") refs).

Definition message (metadata : list (string * string)) : Message :=
  mkMessage "m1" "{}" metadata true.

Definition clicks : Feature :=
  mkFeature "streaming" "clicks.default" "https://example.com/schemas#Order" "count()" "sha1:count()".

Definition views : Feature :=
  mkFeature "streaming" "views.default" "https://example.com/schemas#View" "sum()" "sha1:sum()".


Definition order_schema : url.URL :=
  url.mkURL "https" "" None "example.com" "/schemas" "" false "" "Order" "".

(** A generation's [BaseStreaming] with the schema above. *)
Definition streaming (fs : list (option Feature)) : BaseStreaming :=
  mkBaseStreaming "memory" 1 (Some order_schema) (Some 0) (Some (ExtractMetadata memory)) fs.

(** The same without a schema. *)
Definition schemaless : BaseStreaming :=
  mkBaseStreaming "memory" 1 None (Some 0) (Some (ExtractMetadata memory)) [].

Definition internal : error := statusError codes.Internal "boom".

(** Runtimes: one that has lost the program for two calls, one that never
    finds it, one that fails, one that answers with another id. *)
Definition flaky : Env := world [λ _, inr not_found; λ _, inr not_found] id.
Definition lost : Env := world (repeat (λ _, inr not_found) 3) id.
Definition failing : Env := world [λ _, inr internal] id.
Definition confused : Env :=
  world [λ _, inl (mkExecutePyExpResponse "someone-else")] (λ _, "someone-else").

Definition orders : DataSource :=
  source "streaming" "https://example.com/schemas#Order" ["clicks"].

(** The manager after the source [orders] was added. *)
Definition running : State :=
  default (initial conn) (run healthy 2 [OnAdd orders] (initial conn)).

End demo.

(** ** Vocabulary of the properties *)

(** The key/value set of a message's metadata, as the [url.Values] a
    faithful encoding of it decodes to. *)
Definition metadata_values (metadata : list (string * string)) : url.Values :=
  fold_left (λ v kv, url.Add v (fst kv) (snd kv)) metadata ∅.

(** The [n]-th execution call (counting from 0) fails with "not found". *)
Definition answers_not_found (env : Env) (n : nat) : Prop :=
  forall t req, calls is_ExecutePyExp t = n ->
    exists e, ExecutePyExp env t req = inr e /\ status.Code e = codes.NotFound.

(** The [n]-th execution call succeeds and echoes the correlation id. *)
Definition answers_echo (env : Env) (n : nat) : Prop :=
  forall t req, calls is_ExecutePyExp t = n ->
    exists resp, ExecutePyExp env t req = inl resp /\ exr_Uuid resp = ex_Uuid req.

(** The [n]-th program registration succeeds and echoes the correlation
    id. *)
Definition registers (env : Env) (n : nat) : Prop :=
  forall t req, calls is_LoadPyExpProgram t = n ->
    exists resp, LoadPyExpProgram env t req = inl resp /\ lpr_Uuid resp = lp_Uuid req.

(** The envelope can be built and serialized. *)
Definition encodes (env : Env) : Prop :=
  (forall ev ct body, exists ev', SetData env ev ct body = inl ev')
  /\ (forall ev, exists pb, ToProto env ev = inl pb)
  /\ (forall pb, exists data, anypb_New env pb = inl data).

(** The state [Update] hands to [Add]: the scope behind [m.cancel], if
    any, is cancelled and [m.bs] is nil. *)
Definition cancel_stored (s : State) : State :=
  match m_cancel s with
  | Some g =>
      set_m_bs (set_scopes s (alter (λ sc, mkScope true (teardown sc) (workers sc) (sc_bs sc))
                                    g (scopes s))) None
  | None => s
  end.

(** ** Vocabulary of the further properties *)

Definition is_Shutdown (e : Event) : bool :=
  match e with EvShutdown _ _ => true | _ => false end.

(** The requests of the execution calls on a trace, in order. *)
Definition exec_requests (t : Trace) : list ExecutePyExpRequest :=
  flat_map (λ e, match e with EvExecutePyExp req _ => [req] | _ => [] end) t.

(** The keys of the store lookups on a trace, in order. *)
Definition get_keys (t : Trace) : list ObjectKey :=
  flat_map (λ e, match e with EvGet key _ => [key] | _ => [] end) t.

Definition is_NewUUID (e : Event) : bool :=
  match e with EvNewUUID _ => true | _ => false end.

(** The events feature resolution can cause. *)
Definition resolver_event (e : Event) : bool :=
  match e with
  | EvNewUUID _ | EvRegisterSchema _ _ | EvLoadPyExpProgram _ _ | EvGet _ _
  | EvLogError _ _ | EvLogInfo _ => true
  | _ => false
  end.

(** The events the execution pipeline can cause. *)
Definition pipeline_event (e : Event) : bool :=
  match e with
  | EvNewUUID _ | EvExecutePyExp _ _ | EvLoadPyExpProgram _ _ => true
  | _ => false
  end.

(** [s'] is [s] with more events on the trace, all of them in [P], and
    nothing else changed. *)
Definition appends_only (P : Event -> bool) (s s' : State) : Prop :=
  exists added, s' = set_trace s (trace s ++ added)%list /\ forallb P added = true.

(** Two features that differ at most in their fingerprint. *)
Definition same_definition (a b : Feature) : Prop :=
  Kind a = Kind b /\ FQN a = FQN b /\ Schema a = Schema b /\ Expression a = Expression b.

(** The same for entries of a feature list, nil matching nil only. *)
Definition same_entry (a b : option Feature) : Prop :=
  match a, b with
  | Some x, Some y => same_definition x y
  | None, None => True
  | _, _ => False
  end.

(** The runtime answers every schema registration with [err]. *)
Definition schema_registration_fails (env : Env) (err : error) : Prop :=
  forall t req, RegisterSchema env t req = inr err.

(** The key [getFeatureDefinitions] looks a reference up with. *)
Definition effective_key (src : DataSource) (ref : ResourceReference) : ObjectKey :=
  mkObjectKey (if String.eqb (ref_Namespace ref) "" then ds_Namespace src else ref_Namespace ref)
              (ref_Name ref).

(** [s] after [m.logger.Error(err, msg)]. *)
Definition log_error (s : State) (err : error) (msg : string) : State :=
  set_trace s (trace s ++ [EvLogError err msg])%list.

(** How [Add] can end. *)
Inductive AddOutcome (env : Env) (src : DataSource) (s : State) (r : result unit) (s' : State)
  : Prop :=
| add_not_started :
    r = Ret tt -> m_ready s' = false -> scopes s' = scopes s ->
    m_cancel s' = m_cancel s -> m_bs s' = m_bs s ->
    calls is_Subscribe (trace s') = calls is_Subscribe (trace s) ->
    AddOutcome env src s r s'
| add_subscribe_failed :
    r = Ret tt -> m_ready s' = false ->
    scopes s' = (scopes s ++ [mkScope false NotStarted 0 None])%list ->
    m_cancel s' = Some (length (scopes s)) -> m_bs s' = m_bs s ->
    calls is_Subscribe (trace s') = calls is_Subscribe (trace s) + 1 ->
    AddOutcome env src s r s'
| add_started bs kind n schema :
    r = Ret tt -> m_ready s' = true ->
    scopes s' = (scopes s ++ [mkScope false Waiting (Z.to_nat (Workers bs)) (Some bs)])%list ->
    m_cancel s' = Some (length (scopes s)) -> m_bs s' = Some bs ->
    cfg_Unmarshal env (fst (ParseConfig env (trace s) src)) = inl (kind, n, schema) ->
    BrokerKind bs = kind -> Workers bs = (if (n =? 0)%Z then 1%Z else n) ->
    bs_Schema bs = schema -> subscription bs = Some (length (scopes s)) ->
    length (features bs) = length (ds_Features src) ->
    calls is_Subscribe (trace s') = calls is_Subscribe (trace s) + 1 ->
    AddOutcome env src s r s'
| add_panicked reason :
    r = Panic reason -> m_ready s' = false ->
    scopes s' = (scopes s ++ [mkScope false Waiting 0 None])%list ->
    m_cancel s' = Some (length (scopes s)) -> m_bs s' = m_bs s ->
    calls is_Subscribe (trace s') = calls is_Subscribe (trace s) + 1 ->
    AddOutcome env src s r s'.

(** The loop of lines 349-354 as a step function. *)
Definition headers_step (acc : string * url.URL) (kv : string * string) : string * url.URL :=
  let '(contentType, u) := acc in
  let '(k, v) := kv in
  let contentType := if String.eqb (ToLower k) "content-type" then v else contentType in
  let dropped := url.Add (url.Query u) k v in
  (contentType, u).

(** ** More worlds for examples *)

Module cases.

(** A world with one collaborator replaced. *)

Definition with_RegisterSchema (env : Env)
    (f : Trace -> RegisterSchemaRequest -> RegisterSchemaResponse + error) : Env :=
  mkEnv (uuid_New env) f (LoadPyExpProgram env) (ExecutePyExp env) (client_Get env)
        (json_Unmarshal env) (url_Parse env) (URL_String env) (ParseConfig env)
        (cfg_Unmarshal env) (brokers_Get env) (Receive env) (Shutdown env)
        (SetData env) (ToProto env) (anypb_New env).

Definition with_LoadPyExpProgram (env : Env)
    (f : Trace -> LoadPyExpProgramRequest -> LoadPyExpProgramResponse + error) : Env :=
  mkEnv (uuid_New env) (RegisterSchema env) f (ExecutePyExp env) (client_Get env)
        (json_Unmarshal env) (url_Parse env) (URL_String env) (ParseConfig env)
        (cfg_Unmarshal env) (brokers_Get env) (Receive env) (Shutdown env)
        (SetData env) (ToProto env) (anypb_New env).

Definition with_json_Unmarshal (env : Env)
    (f : string -> (string * string * string) + error) : Env :=
  mkEnv (uuid_New env) (RegisterSchema env) (LoadPyExpProgram env) (ExecutePyExp env)
        (client_Get env) f (url_Parse env) (URL_String env) (ParseConfig env)
        (cfg_Unmarshal env) (brokers_Get env) (Receive env) (Shutdown env)
        (SetData env) (ToProto env) (anypb_New env).

Definition with_brokers_Get (env : Env) (f : string -> option Broker) : Env :=
  mkEnv (uuid_New env) (RegisterSchema env) (LoadPyExpProgram env) (ExecutePyExp env)
        (client_Get env) (json_Unmarshal env) (url_Parse env) (URL_String env) (ParseConfig env)
        (cfg_Unmarshal env) f (Receive env) (Shutdown env)
        (SetData env) (ToProto env) (anypb_New env).


Definition unavailable : error := statusError codes.Unavailable "connection refused".

(** The runtime refuses schema registrations. *)
Definition no_schemas : Env := with_RegisterSchema demo.healthy (λ _ _, inr unavailable).

(** The runtime has lost the program and refuses to load it again. *)
Definition no_programs : Env :=
  with_LoadPyExpProgram (demo.world [λ _, inr demo.not_found] id) (λ _ _, inr unavailable).

(** The feature [clicks] names a schema on the source's own host. *)
Definition sibling_schema : Env :=
  with_json_Unmarshal demo.healthy
    (λ raw, if String.eqb raw "clicks.json"
            then inl ("streaming", "https://example.com/other#Click", "count()")
            else demo.Unmarshal raw).

(** No broker is registered. *)
Definition no_brokers : Env := with_brokers_Get demo.healthy (λ _, None).

Definition order : Message :=
  demo.message [("Content-Type", "application/json"); ("x-tenant", "acme")].


(** The manager after [orders] was added and then updated. *)
Definition replaced : State :=
  default (initial demo.conn)
    (run demo.healthy 2 [OnAdd demo.orders; OnUpdate demo.orders demo.orders]
         (initial demo.conn)).

(** A broker whose [Subscribe] fails, and the world where it is the only
    one. *)
Definition deaf : Broker :=
  mkBroker (λ _ _ _, Some unavailable) (ExtractMetadata demo.memory).
Definition no_subscription : Env := with_brokers_Get demo.healthy (λ _, Some deaf).

End cases.

(** The runtime accepts every schema registration and echoes its id. *)
Definition schema_registers (env : Env) : Prop :=
  forall t req, exists resp,
    RegisterSchema env t req = inl resp /\ rsr_Uuid resp = rs_Uuid req.

(** * Properties *)

(** ** net/url on examples *)

Example ex_QueryEscape : url.QueryEscape "a b&c=d/é" = "a+b%26c%3Dd%2F%C3%A9".
Proof. reflexivity. Qed.
Example ex_QueryUnescape : url.QueryUnescape "a+b%26c%3Dd%2F%C3%A9" = Some "a b&c=d/é".
Proof. reflexivity. Qed.
Example ex_ParseQuery :
  url.ParseQuery "b=2&a=1&b=3&;x&&c" = <["c" := [""]]> (<["a" := ["1"]]> (<["b" := ["2"; "3"]]> ∅)).
Proof. vm_compute. reflexivity. Qed.
Example ex_Encode :
  url.Encode (url.Add (url.Add (url.Add ∅ "b" "2") "a" "1 x") "b" "3") = "a=1+x&b=2&b=3".
Proof. vm_compute. reflexivity. Qed.
Example ex_ToLower : ToLower "Content-TYPE" = "content-type".
Proof. reflexivity. Qed.

(** ** Metadata headers *)

Lemma headers_url_untouched (metadata : list (string * string)) (ct : string) (u : url.URL) :
  snd (fold_left
         (λ (acc : string * url.URL) (kv : string * string),
            let '(contentType, u) := acc in
            let '(k, v) := kv in
            let contentType :=
              if String.eqb (ToLower k) "content-type" then v else contentType in
            let dropped := url.Add (url.Query u) k v in
            (contentType, u))
         metadata (ct, u)) = u.
Proof.
  revert ct u. induction metadata as [|[k v] rest IH]; intros ct u; cbn.
  - reflexivity.
  - apply IH.
Qed.

Lemma Encode_Query_zero : url.Encode (url.Query url.zero) = "".
Proof. vm_compute. reflexivity. Qed.

Lemma headers_empty (metadata : list (string * string)) :
  snd (headers metadata) = url.zero.
Proof.
  unfold headers.
  pose proof (headers_url_untouched metadata "" url.zero) as H.
  destruct (fold_left _ metadata ("", url.zero)) as [ct u]. cbn in H. subst u.
  cbn [snd]. rewrite Encode_Query_zero. reflexivity.
Qed.

(** C3, as the code runs: whatever the metadata, the ["headers"] extension
    built by [handle] has an empty query string, so decoding it gives the
    empty key/value set; for the one-entry metadata [a=b] this is not the
    set the message carried. *)
Theorem headers_lose_metadata :
  (forall metadata, url.Query (snd (headers metadata)) = ∅)
  /\ url.Query (snd (headers [("a", "b")])) <> metadata_values [("a", "b")].
Proof.
  split.
  - intros metadata. rewrite headers_empty. vm_compute. reflexivity.
  - rewrite headers_empty. intros H.
    apply (f_equal (λ m : url.Values, m !! "a")) in H.
    vm_compute in H. discriminate H.
Qed.

(** ** Running the RPC wrappers *)

Lemma calls_app p (t1 t2 : Trace) : calls p (t1 ++ t2) = calls p t1 + calls p t2.
Proof. unfold calls. rewrite List.filter_app, length_app. reflexivity. Qed.

Ltac go_unfold :=
  unfold registerSchema, registerProgram, newUUID, runtime_RegisterSchema,
    runtime_LoadPyExpProgram, runtime_ExecutePyExp, store_Get, source_ParseConfig,
    broker_Subscribe, subscription_Receive, subscription_Shutdown,
    logError, logInfo, emit, modify, get_state, bind, ret, panic, nil_dereference,
    out_of_fuel; cbn.

Lemma registerSchema_run env schema s :
  registerSchema env schema s =
  let id := uuid_New env (trace s) in
  let t1 := (trace s ++ [EvNewUUID id])%list in
  let req := mkRegisterSchemaRequest id schema in
  let r := RegisterSchema env t1 req in
  (Ret match r with
       | inr err => Some (wrapError "failed to register schema: %w" err)
       | inl resp =>
           if negb (String.eqb (rsr_Uuid resp) id)
           then Some (errorString "failed to register schema: unexpected uuid")
           else None
       end,
   set_trace s (t1 ++ [EvRegisterSchema req r])%list).
Proof.
  go_unfold.
  destruct (RegisterSchema env _ _) as [resp|err]; cbn; [|reflexivity].
  destruct (String.eqb _ _); reflexivity.
Qed.

Lemma registerProgram_run env ft s :
  registerProgram env ft s =
  let id := uuid_New env (trace s) in
  let t1 := (trace s ++ [EvNewUUID id])%list in
  let req := mkLoadPyExpProgramRequest id (Expression ft) in
  let r := LoadPyExpProgram env t1 req in
  (Ret match r with
       | inr err => (ft, Some (wrapError "failed to register program: %w" err))
       | inl resp =>
           if negb (String.eqb (lpr_Uuid resp) id)
           then (ft, Some (errorString "failed to register program: unexpected uuid"))
           else (set_programSha1 ft (lpr_ProgramSha1 resp), None)
       end,
   set_trace s (t1 ++ [EvLoadPyExpProgram req r])%list).
Proof.
  go_unfold.
  destruct (LoadPyExpProgram env _ _) as [resp|err]; cbn; [|reflexivity].
  destruct (String.eqb _ _); reflexivity.
Qed.

(** One pass through the block at the label [exec]. *)
Lemma execute_unfold env fuel tries req ft s :
  execute env fuel tries req ft s =
  let r := ExecutePyExp env (trace s) req in
  let s1 := set_trace s (trace s ++ [EvExecutePyExp req r])%list in
  match r with
  | inr err =>
      if codes.eqb (status.Code err) codes.NotFound then
        match registerProgram env ft s1 with
        | (Ret p, s2) =>
            match snd p with
            | Some err' => (Ret (fst p, Some (wrapError "failed to register program: %w" err')), s2)
            | None =>
                if (tries <? 3)%Z then
                  match fuel with
                  | O => (OutOfFuel, s2)
                  | S fuel' => execute env fuel' (tries + 1)%Z req (fst p) s2
                  end
                else (Ret (fst p, Some (wrapError "failed to execute program: %w" err)), s2)
            end
        | (Panic r, s2) => (Panic r, s2)
        | (OutOfFuel, s2) => (OutOfFuel, s2)
        end
      else (Ret (ft, Some (wrapError "failed to execute program: %w" err)), s1)
  | inl resp =>
      if negb (String.eqb (exr_Uuid resp) (ex_Uuid req))
      then (Ret (ft, Some (errorString "failed to execute program: unexpected uuid")), s1)
      else (Ret (ft, None), s1)
  end.
Proof.
  destruct fuel; cbn [execute];
  unfold runtime_ExecutePyExp, get_state, emit, modify, bind, ret, out_of_fuel;
  cbn -[registerProgram];
  destruct (ExecutePyExp env (trace s) req) as [resp|err]; cbn -[registerProgram];
  try (destruct (String.eqb _ _); reflexivity);
  destruct (codes.eqb _ _); try reflexivity;
  match goal with |- context [registerProgram env ft ?s1] =>
    destruct (registerProgram env ft s1) as [[p| |] s2] end; try reflexivity;
  destruct (snd p); try reflexivity; destruct (tries <? 3)%Z; reflexivity.
Qed.

(** Two units of fuel are enough from the first try: the block returns. *)
Lemma execute_returns env fuel : forall tries req ft s,
  (1 <= tries)%Z ->
  Z.to_nat (3 - tries) <= fuel ->
  exists p s', execute env fuel tries req ft s = (Ret p, s').
Proof.
  induction fuel as [|fuel IH]; intros tries req ft s Htries Hfuel;
    rewrite execute_unfold; cbv zeta;
    (destruct (ExecutePyExp env (trace s) req) as [resp|err];
     [destruct (negb _); eauto|]);
    (destruct (codes.eqb _ _); [|eauto]);
    rewrite registerProgram_run; cbv zeta;
    match goal with |- context [LoadPyExpProgram env ?t ?r] =>
      destruct (LoadPyExpProgram env t r) as [resp|err'] end;
    cbn [snd fst]; eauto;
    (destruct (negb _); cbn [snd fst]; [eauto|]);
    destruct (Z.ltb_spec tries 3); eauto.
  - lia.
  - apply IH; lia.
Qed.

(** ** Correlation ids *)

(** C7: in each of the three exchanges, an answer whose correlation id
    differs from the id sent makes the operation return an error, and that
    error is the unwrapped ["...: unexpected uuid"] value: [registerSchema],
    [registerProgram], and the execution call of [handle] at any attempt. *)
Theorem correlation_mismatch_is_an_error (env : Env) :
  (forall schema s resp,
     RegisterSchema env (trace s ++ [EvNewUUID (uuid_New env (trace s))])%list
       (mkRegisterSchemaRequest (uuid_New env (trace s)) schema) = inl resp ->
     rsr_Uuid resp <> uuid_New env (trace s) ->
     fst (registerSchema env schema s)
     = Ret (Some (errorString "failed to register schema: unexpected uuid")))
  /\ (forall ft s resp,
     LoadPyExpProgram env (trace s ++ [EvNewUUID (uuid_New env (trace s))])%list
       (mkLoadPyExpProgramRequest (uuid_New env (trace s)) (Expression ft)) = inl resp ->
     lpr_Uuid resp <> uuid_New env (trace s) ->
     fst (registerProgram env ft s)
     = Ret (ft, Some (errorString "failed to register program: unexpected uuid")))
  /\ (forall fuel tries req ft s resp,
     ExecutePyExp env (trace s) req = inl resp ->
     exr_Uuid resp <> ex_Uuid req ->
     fst (execute env fuel tries req ft s)
     = Ret (ft, Some (errorString "failed to execute program: unexpected uuid"))).
Proof.
  repeat split.
  - intros schema s resp H Hne. rewrite registerSchema_run. cbv zeta. rewrite H.
    apply String.eqb_neq in Hne. rewrite Hne. reflexivity.
  - intros ft s resp H Hne. rewrite registerProgram_run. cbv zeta. rewrite H.
    apply String.eqb_neq in Hne. rewrite Hne. reflexivity.
  - intros fuel tries req ft s resp H Hne. rewrite execute_unfold. cbv zeta. rewrite H.
    apply String.eqb_neq in Hne. rewrite Hne. reflexivity.
Qed.

Lemma correlation_mismatch_witness :
  fst (registerSchema demo.confused "https://example.com/schemas#Order" (initial demo.conn))
  = Ret (Some (errorString "failed to register schema: unexpected uuid"))
  /\ fst (registerProgram demo.confused demo.clicks (initial demo.conn))
     = Ret (demo.clicks, Some (errorString "failed to register program: unexpected uuid"))
  /\ fst (execute demo.confused 2 1
            (mkExecutePyExpRequest "uuid-0" "clicks.default" "sha1:count()" None (mkAny "" ""))
            demo.clicks (initial demo.conn))
     = Ret (demo.clicks, Some (errorString "failed to execute program: unexpected uuid")).
Proof.
  destruct (correlation_mismatch_is_an_error demo.confused) as (Hs & Hp & He).
  split; [|split].
  - eapply Hs; [reflexivity | discriminate].
  - eapply Hp; [reflexivity | discriminate].
  - eapply He; [reflexivity | discriminate].
Defined.

(** A call that fails in transport is reported as a wrapped error, never as
    the value above. *)
Lemma transport_failure_is_wrapped env :
  (forall schema s err,
     RegisterSchema env (trace s ++ [EvNewUUID (uuid_New env (trace s))])%list
       (mkRegisterSchemaRequest (uuid_New env (trace s)) schema) = inr err ->
     fst (registerSchema env schema s)
     = Ret (Some (wrapError "failed to register schema: %w" err)))
  /\ (forall ft s err,
     LoadPyExpProgram env (trace s ++ [EvNewUUID (uuid_New env (trace s))])%list
       (mkLoadPyExpProgramRequest (uuid_New env (trace s)) (Expression ft)) = inr err ->
     fst (registerProgram env ft s)
     = Ret (ft, Some (wrapError "failed to register program: %w" err))).
Proof.
  split.
  - intros schema s err H. rewrite registerSchema_run. cbv zeta. rewrite H. reflexivity.
  - intros ft s err H. rewrite registerProgram_run. cbv zeta. rewrite H. reflexivity.
Qed.

(** ** Retry on "not found" *)

(** A failed attempt followed by a successful re-registration goes back to
    [exec] with one more try, one more execution call and one more
    registration on the trace. *)
Lemma execute_retry env fuel tries req ft s :
  answers_not_found env (calls is_ExecutePyExp (trace s)) ->
  registers env (calls is_LoadPyExpProgram (trace s)) ->
  (tries < 3)%Z ->
  exists ft' s',
    execute env (S fuel) tries req ft s = execute env fuel (tries + 1)%Z req ft' s'
    /\ calls is_ExecutePyExp (trace s') = S (calls is_ExecutePyExp (trace s))
    /\ calls is_LoadPyExpProgram (trace s') = S (calls is_LoadPyExpProgram (trace s)).
Proof.
  intros Hnf Hreg Htries.
  rewrite execute_unfold. cbv zeta.
  destruct (Hnf (trace s) req eq_refl) as (e & -> & ->). cbn [codes.eqb].
  rewrite registerProgram_run. cbv zeta. cbn [trace set_trace].
  edestruct Hreg as (resp & -> & Hid).
  { rewrite !calls_app. cbn. lia. }
  cbn [lp_Uuid] in Hid. rewrite Hid, String.eqb_refl. cbn [negb snd fst].
  apply Z.ltb_lt in Htries. rewrite Htries.
  eexists _, _. split; [reflexivity|]. cbn [trace set_trace].
  rewrite !calls_app. cbn. lia.
Qed.

Lemma execute_success env fuel tries req ft s :
  answers_echo env (calls is_ExecutePyExp (trace s)) ->
  exists s',
    execute env fuel tries req ft s = (Ret (ft, None), s')
    /\ calls is_ExecutePyExp (trace s') = S (calls is_ExecutePyExp (trace s))
    /\ calls is_LoadPyExpProgram (trace s') = calls is_LoadPyExpProgram (trace s).
Proof.
  intros Hok. rewrite execute_unfold. cbv zeta.
  destruct (Hok (trace s) req eq_refl) as (resp & -> & ->).
  rewrite String.eqb_refl. cbn [negb].
  eexists. split; [reflexivity|]. cbn [trace set_trace].
  rewrite !calls_app. cbn. lia.
Qed.

Lemma handle_feature_unfold env fuel msg md ft s :
  handle_feature env fuel msg md ft s =
  let ev := mkCloudEvent (md_ID md) (ObjectKey_String (m_conn s)) (md_Timestamp md)
                         (Schema ft) (md_Topic md) (snd (headers (Metadata msg))) "" "" in
  match SetData env ev (fst (headers (Metadata msg))) (Body msg) with
  | inr err => (Ret (ft, Some (wrapError "failed to set data: %w" err)), s)
  | inl ev =>
    match ToProto env ev with
    | inr err => (Ret (ft, Some (wrapError "failed to convert event to protobuf: %w" err)), s)
    | inl pb =>
      match anypb_New env pb with
      | inr err => (Ret (ft, Some (wrapError "failed to create anypb: %w" err)), s)
      | inl data =>
          let id := uuid_New env (trace s) in
          execute env fuel 1%Z (mkExecutePyExpRequest id (FQN ft) (programSha1 ft) None data) ft
                  (set_trace s (trace s ++ [EvNewUUID id])%list)
      end
    end
  end.
Proof.
  unfold handle_feature, bind, get_state. cbv zeta.
  destruct (headers (Metadata msg)) as [ct u]. cbn [fst snd].
  destruct (SetData env _ _ _) as [ev|err]; [|reflexivity].
  destruct (ToProto env ev) as [pb|err]; [|reflexivity].
  destruct (anypb_New env pb) as [data|err]; [|reflexivity].
  reflexivity.
Qed.

(** C4: when the first two execution calls for a feature answer "not found"
    and the third succeeds (with both re-registrations succeeding and the
    envelope encodable), the pipeline succeeds for that feature, having
    made exactly three execution calls, hence no more than 3, and exactly
    two program re-registrations. *)
Theorem retry_twice_then_success env fuel msg md ft s :
  2 <= fuel ->
  encodes env ->
  answers_not_found env (calls is_ExecutePyExp (trace s)) ->
  answers_not_found env (calls is_ExecutePyExp (trace s) + 1) ->
  answers_echo env (calls is_ExecutePyExp (trace s) + 2) ->
  registers env (calls is_LoadPyExpProgram (trace s)) ->
  registers env (calls is_LoadPyExpProgram (trace s) + 1) ->
  exists ft' s',
    handle_feature env fuel msg md ft s = (Ret (ft', None), s')
    /\ calls is_ExecutePyExp (trace s') = calls is_ExecutePyExp (trace s) + 3
    /\ calls is_LoadPyExpProgram (trace s') = calls is_LoadPyExpProgram (trace s) + 2.
Proof.
  intros Hfuel (Hdata & Hproto & Hany) Hnf1 Hnf2 Hok Hreg1 Hreg2.
  rewrite handle_feature_unfold. cbv zeta.
  edestruct Hdata as (ev & ->). edestruct Hproto as (pb & ->).
  edestruct Hany as (data & ->).
  set (req := mkExecutePyExpRequest _ _ _ _ _).
  set (s0 := set_trace s _).
  assert (He0 : calls is_ExecutePyExp (trace s0) = calls is_ExecutePyExp (trace s)).
  { unfold s0. cbn [trace set_trace]. rewrite calls_app. cbn. lia. }
  assert (Hl0 : calls is_LoadPyExpProgram (trace s0) = calls is_LoadPyExpProgram (trace s)).
  { unfold s0. cbn [trace set_trace]. rewrite calls_app. cbn. lia. }
  destruct fuel as [|[|fuel]]; try lia.
  destruct (execute_retry env (S fuel) 1%Z req ft s0) as (ft1 & s1 & -> & He1 & Hl1);
    [rewrite He0; assumption | rewrite Hl0; assumption | lia |].
  destruct (execute_retry env fuel (1 + 1)%Z req ft1 s1) as (ft2 & s2 & -> & He2 & Hl2);
    [rewrite He1, He0, <- Nat.add_1_r; assumption
    |rewrite Hl1, Hl0, <- Nat.add_1_r; assumption | lia |].
  destruct (execute_success env fuel (1 + 1 + 1)%Z req ft2 s2) as (s3 & -> & He3 & Hl3).
  { rewrite He2, He1, He0. replace (S (S _)) with (calls is_ExecutePyExp (trace s) + 2) by lia.
    assumption. }
  exists ft2, s3. split; [reflexivity|]. lia.
Qed.

Lemma demo_encodes script reply : encodes (demo.world script reply).
Proof. repeat split; intros; eexists; reflexivity. Defined.

Lemma demo_registers script n : registers (demo.world script id) n.
Proof. intros t req _. eexists. split; reflexivity. Defined.

Lemma retry_twice_then_success_witness :
  exists ft' s',
    handle_feature demo.flaky 2 (demo.message [])
      (ExtractMetadata demo.memory (demo.message [])) demo.clicks (initial demo.conn)
    = (Ret (ft', None), s')
    /\ calls is_ExecutePyExp (trace s') = 0 + 3
    /\ calls is_LoadPyExpProgram (trace s') = 0 + 2.
Proof.
  apply (retry_twice_then_success demo.flaky 2 (demo.message [])
           (ExtractMetadata demo.memory (demo.message [])) demo.clicks (initial demo.conn)).
  - lia.
  - apply demo_encodes.
  - intros t req Ht. exists demo.not_found. cbn in *. rewrite Ht. split; reflexivity.
  - intros t req Ht. exists demo.not_found. cbn in *. rewrite Ht. split; reflexivity.
  - intros t req Ht. eexists. cbn in *. rewrite Ht. split; reflexivity.
  - apply demo_registers.
  - apply demo_registers.
Defined.

(** With [3 - tries] gotos still allowed and every remaining execution call
    answering "not found", the block returns an error, whatever the
    re-registrations answer, after at most [3 - tries + 1] calls. *)
Lemma execute_exhausts env fuel : forall tries req ft s,
  (1 <= tries <= 3)%Z ->
  Z.to_nat (3 - tries) <= fuel ->
  (forall i, i <= Z.to_nat (3 - tries) ->
     answers_not_found env (calls is_ExecutePyExp (trace s) + i)) ->
  exists ft' err s',
    execute env fuel tries req ft s = (Ret (ft', Some err), s')
    /\ calls is_ExecutePyExp (trace s')
       <= calls is_ExecutePyExp (trace s) + Z.to_nat (3 - tries) + 1.
Proof.
  induction fuel as [|fuel IH]; intros tries req ft s Htries Hfuel Hnf;
    rewrite execute_unfold; cbv zeta;
    (destruct (Hnf 0 ltac:(lia) (trace s) req ltac:(lia)) as (e & -> & ->));
    cbn [codes.eqb]; rewrite registerProgram_run; cbv zeta; cbn [trace set_trace];
    match goal with |- context [LoadPyExpProgram env ?t ?r] =>
      destruct (LoadPyExpProgram env t r) as [resp|err] end;
    cbn [snd fst];
    try (eexists _, _, _; split; [reflexivity|];
         cbn [trace set_trace]; rewrite !calls_app; cbn; lia);
    match goal with |- context [negb ?b] => destruct b end; cbn [negb snd fst];
    try (eexists _, _, _; split; [reflexivity|];
         cbn [trace set_trace]; rewrite !calls_app; cbn; lia).
  - assert (tries = 3%Z) as -> by lia. cbn.
    eexists _, _, _; split; [reflexivity|].
    cbn [trace set_trace]; rewrite !calls_app; cbn; lia.
  - destruct (Z.ltb_spec tries 3).
    + match goal with |- context [execute env fuel _ req ?ft1 ?s1] =>
        destruct (IH (tries + 1)%Z req ft1 s1) as (ft' & err & s' & -> & Hc) end.
      * lia.
      * lia.
      * intros i Hi. cbn [trace set_trace]. rewrite !calls_app. cbn.
        replace (calls is_ExecutePyExp (trace s) + 1 + 0 + 0 + i)
          with (calls is_ExecutePyExp (trace s) + S i) by lia.
        apply Hnf. lia.
      * eexists _, _, _. split; [reflexivity|].
        cbn [trace set_trace] in Hc. rewrite !calls_app in Hc. cbn in Hc. lia.
    + eexists _, _, _; split; [reflexivity|].
      cbn [trace set_trace]; rewrite !calls_app; cbn; lia.
Qed.

(** A failure of one feature is the failure of [handle]: the features after
    it are not served. *)
Lemma handle_range_failure env fuel msg md done ft rest s ft' err s' :
  handle_feature env fuel msg md ft s = (Ret (ft', Some err), s') ->
  handle_range env fuel msg md done (Some ft :: rest) s
  = (Ret ((done ++ Some ft' :: rest)%list, Some err), s').
Proof.
  intros H. cbn [handle_range]. unfold bind. rewrite H. reflexivity.
Qed.

(** C5: when the pipeline reaches a feature and the next three execution
    calls all answer "not found", [handle] returns an error for the message
    (whatever the features before and after it), and no fourth execution
    call is made. *)
Theorem retry_exhaustion env fuel msg md done ft rest s :
  2 <= fuel ->
  (forall i, i < 3 -> answers_not_found env (calls is_ExecutePyExp (trace s) + i)) ->
  exists fs err s',
    handle_range env fuel msg md done (Some ft :: rest) s = (Ret (fs, Some err), s')
    /\ calls is_ExecutePyExp (trace s') <= calls is_ExecutePyExp (trace s) + 3.
Proof.
  intros Hfuel Hnf.
  assert (exists ft' err s',
    handle_feature env fuel msg md ft s = (Ret (ft', Some err), s')
    /\ calls is_ExecutePyExp (trace s') <= calls is_ExecutePyExp (trace s) + 3)
    as (ft' & err & s' & H & Hc).
  { rewrite handle_feature_unfold. cbv zeta.
    destruct (SetData env _ _ _) as [ev|err]; [|eexists _, _, _; split; [reflexivity|lia]].
    destruct (ToProto env ev) as [pb|err]; [|eexists _, _, _; split; [reflexivity|lia]].
    destruct (anypb_New env pb) as [data|err]; [|eexists _, _, _; split; [reflexivity|lia]].
    match goal with |- context [execute env fuel 1%Z ?req ft ?s0] =>
      destruct (execute_exhausts env fuel 1%Z req ft s0) as (ft' & err & s' & -> & Hc) end.
    - lia.
    - cbn. lia.
    - intros i Hi. cbn [trace set_trace]. rewrite calls_app. cbn.
      rewrite Nat.add_0_r. apply Hnf. cbn in Hi. lia.
    - eexists _, _, _. split; [reflexivity|].
      cbn [trace set_trace] in Hc. rewrite calls_app in Hc. cbn in Hc. lia. }
  eexists _, _, _. split; [apply handle_range_failure; exact H | exact Hc].
Qed.

Lemma retry_exhaustion_witness :
  exists fs err s',
    handle_range demo.lost 2 (demo.message []) (ExtractMetadata demo.memory (demo.message []))
      [] [Some demo.clicks] (initial demo.conn) = (Ret (fs, Some err), s')
    /\ calls is_ExecutePyExp (trace s') <= 0 + 3.
Proof.
  apply (retry_exhaustion demo.lost 2 (demo.message [])
           (ExtractMetadata demo.memory (demo.message [])) [] demo.clicks []
           (initial demo.conn)).
  - lia.
  - intros i Hi t req Ht. exists demo.not_found. cbn in *. rewrite Ht.
    destruct i as [|[|[|i]]]; [split; reflexivity .. | lia].
Defined.

(** On the exhausted runtime the three attempts are made, each followed by
    a re-registration, and the last error is the one reported. *)
Example exhausted_run :
  let r := handle demo.lost 2 (demo.message []) (ExtractMetadata demo.memory (demo.message []))
             (demo.streaming [Some demo.clicks; Some demo.views]) (initial demo.conn) in
  fst r = Ret ([Some demo.clicks; Some demo.views],
               Some (wrapError "failed to execute program: %w" demo.not_found))
  /\ calls is_ExecutePyExp (trace (snd r)) = 3
  /\ calls is_LoadPyExpProgram (trace (snd r)) = 3.
Proof. cbv zeta. repeat split; vm_compute; reflexivity. Qed.

(** ** Feature resolver *)

Lemma getFeature_unfold env ref bs s :
  getFeature env ref bs s =
  let r := client_Get env (trace s) (ref_ObjectKey ref) in
  let s1 := set_trace s (trace s ++ [EvGet (ref_ObjectKey ref) r])%list in
  match r with
  | inr err => (Ret (None, Some (wrapError "failed to fetch feature definition: %w" err)), s1)
  | inl ftSpec =>
    match json_Unmarshal env (fo_Raw ftSpec) with
    | inr err => (Ret (None, Some (wrapError "failed to unmarshal feature definition: %w" err)), s1)
    | inl (kind, schema, expression) =>
      if negb (String.eqb kind "streaming") then
        (Ret (None, Some (errorString ("feature definition kind is not supported: " ++ kind))), s1)
      else
        let ft := mkFeature kind (fo_FQN ftSpec) schema expression "" in
        let finish (ft : Feature) (s : State) :=
          match registerProgram env ft s with
          | (Ret p, s') => (Ret (Some (fst p), snd p), s')
          | (Panic r, s') => (Panic r, s')
          | (OutOfFuel, s') => (OutOfFuel, s')
          end in
        let as_fragment :=
          match bs_Schema bs with
          | None => (Panic "invalid memory address or nil pointer dereference", s1)
          | Some src =>
              finish (set_Schema ft (URL_String env (url.set_Fragment src schema))) s1
          end in
        if negb (String.eqb schema "") then
          match url_Parse env schema with
          | inl u =>
              if fully_qualified u then
                match bs_Schema bs with
                | None => (Panic "invalid memory address or nil pointer dereference", s1)
                | Some src =>
                    if negb (same_origin u src) then
                      match registerSchema env schema s1 with
                      | (Ret (Some err), s2) =>
                          (Ret (None, Some (wrapError "failed to register schema: %w" err)), s2)
                      | (Ret None, s2) => finish ft s2
                      | (Panic r, s2) => (Panic r, s2)
                      | (OutOfFuel, s2) => (OutOfFuel, s2)
                      end
                    else finish ft s1
                end
              else as_fragment
          | inr _ => as_fragment
          end
        else
          match bs_Schema bs with
          | None => (Panic "invalid memory address or nil pointer dereference", s1)
          | Some src => finish (set_Schema ft (URL_String env src)) s1
          end
    end
  end.
Proof.
  unfold getFeature, store_Get, bind, get_state, emit, modify, ret, nil_dereference, panic.
  cbv zeta. cbn [trace set_trace fst snd].
  destruct (client_Get env (trace s) (ref_ObjectKey ref)) as [ftSpec|err]; [|reflexivity].
  destruct (json_Unmarshal env (fo_Raw ftSpec)) as [[[kind schema] expression]|err]; [|reflexivity].
  cbn [Kind Schema set_FQN FQN Expression programSha1].
  destruct (String.eqb kind "streaming"); [|reflexivity]. cbn [negb].
  destruct (String.eqb schema ""); cbn [negb].
  - destruct (bs_Schema bs); reflexivity.
  - destruct (url_Parse env schema) as [u|e].
    + destruct (fully_qualified u).
      * destruct (bs_Schema bs) as [src|]; [|reflexivity].
        destruct (same_origin u src); cbn [negb]; [reflexivity|].
        destruct (registerSchema env schema _) as [[[e|]| |] s2]; reflexivity.
      * destruct (bs_Schema bs); reflexivity.
    + destruct (bs_Schema bs); reflexivity.
Qed.

Lemma registerProgram_calls env ft s :
  exists p s', registerProgram env ft s = (Ret p, s')
    /\ calls is_RegisterSchema (trace s') = calls is_RegisterSchema (trace s)
    /\ Schema (fst p) = Schema ft.
Proof.
  rewrite registerProgram_run. cbv zeta. eexists _, _. split; [reflexivity|].
  cbn [trace set_trace]. rewrite !calls_app. cbn. split; [lia|].
  destruct (LoadPyExpProgram env _ _) as [resp|err]; [|reflexivity].
  destruct (negb _); reflexivity.
Qed.


Ltac finish_step H :=
  match type of H with
  | context [registerProgram ?env ?ft0 ?s0] =>
      let p := fresh "p" in let s2 := fresh "s" in
      let E := fresh "E" in let Hc := fresh "Hc" in let Hs := fresh "Hs" in
      destruct (registerProgram_calls env ft0 s0) as (p & s2 & E & Hc & Hs);
      rewrite E in H; cbn [trace set_trace] in Hc; rewrite ?calls_app in Hc; cbn in Hc
  end.



Lemma getFeature_without_source_schema env ref bs s obj schema expression :
  bs_Schema bs = None ->
  client_Get env (trace s) (ref_ObjectKey ref) = inl obj ->
  json_Unmarshal env (fo_Raw obj) = inl ("streaming", schema, expression) ->
  (schema = "" \/ forall u, url_Parse env schema = inl u -> fully_qualified u = false) ->
  fst (getFeature env ref bs s) = Panic "invalid memory address or nil pointer dereference".
Proof.
  intros Hnil Hget Hjson Hschema. rewrite getFeature_unfold. cbv zeta.
  rewrite Hget, Hjson, Hnil. cbn [String.eqb Ascii.eqb Bool.eqb negb].
  destruct (String.eqb schema ""); cbn [negb]; [reflexivity|].
  destruct (url_Parse env schema) as [u|perr]; [|reflexivity].
  destruct (fully_qualified u); reflexivity.
Qed.

Lemma getFeature_with_source_schema env ref bs s src :
  bs_Schema bs = Some src ->
  exists p s', getFeature env ref bs s = (Ret p, s').
Proof.
  intros Hsrc. rewrite getFeature_unfold. cbv zeta. rewrite Hsrc.
  destruct (client_Get env _ _) as [obj|err]; [|eauto].
  destruct (json_Unmarshal env _) as [[[kind schema] expression]|err]; [|eauto].
  destruct (negb (String.eqb kind "streaming")); [eauto|].
  assert (Hfinish : forall ft s0, exists p s',
    match registerProgram env ft s0 with
    | (Ret p, s') => (Ret (Some (fst p), snd p), s')
    | (Panic r, s') => (Panic r, s')
    | (OutOfFuel, s') => (OutOfFuel, s')
    end = (Ret p, s')).
  { intros ft s0. rewrite registerProgram_run. cbv zeta. eauto. }
  destruct (negb (String.eqb schema "")); [|apply Hfinish].
  destruct (url_Parse env schema) as [u|perr]; [|apply Hfinish].
  destruct (fully_qualified u); [|apply Hfinish].
  destruct (negb (same_origin u src)); [|apply Hfinish].
  rewrite registerSchema_run. cbv zeta.
  match goal with |- context [RegisterSchema env ?t ?r] =>
    destruct (RegisterSchema env t r) as [resp|err] end; [|eauto].
  destruct (negb _); [eauto|apply Hfinish].
Qed.

(** C10: [getFeature] dereferences the source schema.  Without one, a
    streaming feature whose schema is empty or does not parse to a URI with
    scheme, host and fragment makes it panic on a nil pointer; with one,
    [getFeature] always returns. *)
Theorem source_schema_is_a_precondition env ref bs s :
  (forall obj schema expression,
     bs_Schema bs = None ->
     client_Get env (trace s) (ref_ObjectKey ref) = inl obj ->
     json_Unmarshal env (fo_Raw obj) = inl ("streaming", schema, expression) ->
     (schema = "" \/ forall u, url_Parse env schema = inl u -> fully_qualified u = false) ->
     fst (getFeature env ref bs s) = Panic "invalid memory address or nil pointer dereference")
  /\ (forall src, bs_Schema bs = Some src ->
      exists p s', getFeature env ref bs s = (Ret p, s')).
Proof.
  split.
  - intros obj schema expression. apply getFeature_without_source_schema.
  - intros src. apply getFeature_with_source_schema.
Qed.

Lemma source_schema_witness :
  fst (getFeature demo.healthy (mkRef "clicks" "default") demo.schemaless (initial demo.conn))
  = Panic "invalid memory address or nil pointer dereference"
  /\ fst (getFeature demo.healthy (mkRef "views" "default") demo.schemaless (initial demo.conn))
     = Panic "invalid memory address or nil pointer dereference"
  /\ exists p s',
       getFeature demo.healthy (mkRef "views" "default") (demo.streaming []) (initial demo.conn)
       = (Ret p, s').
Proof.
  split; [|split].
  - refine (proj1 (source_schema_is_a_precondition demo.healthy (mkRef "clicks" "default")
              demo.schemaless (initial demo.conn))
              (mkFeatureObject "clicks.json" "clicks.default") "" "count()" _ _ _ _);
      [reflexivity | reflexivity | reflexivity | left; reflexivity].
  - refine (proj1 (source_schema_is_a_precondition demo.healthy (mkRef "views" "default")
              demo.schemaless (initial demo.conn))
              (mkFeatureObject "views.json" "views.default") "View" "sum()" _ _ _ _);
      [reflexivity | reflexivity | reflexivity |].
    right. intros u Hu. injection Hu as <-. reflexivity.
  - exact (proj2 (source_schema_is_a_precondition demo.healthy (mkRef "views" "default")
              (demo.streaming []) (initial demo.conn)) demo.order_schema eq_refl).
Defined.

(** Every reference adds one entry to the list, a nil one when [getFeature]
    returned nil. *)
Lemma getFeatureDefinitions_range_failed env src bsc ref rest acc s err s1 :
  getFeature env
    (if String.eqb (ref_Namespace ref) "" then mkRef (ref_Name ref) (ds_Namespace src) else ref)
    bsc (set_trace s (trace s ++ [EvLogInfo ("fetching feature definition: " ++ ref_Name ref)])%list)
  = (Ret (None, Some err), s1) ->
  getFeatureDefinitions_range env src bsc (ref :: rest) acc s
  = getFeatureDefinitions_range env src bsc rest (acc ++ [None])%list
      (set_trace s1 (trace s1 ++ [EvLogError err "failed to fetch feature"])%list).
Proof.
  intros H. cbn [getFeatureDefinitions_range].
  unfold bind at 1. unfold logInfo, emit, modify. unfold bind at 1.
  rewrite H. cbn [snd fst]. unfold bind at 1. reflexivity.
Qed.

Lemma getFeatureDefinitions_range_length env src bsc refs :
  forall acc s fs s',
    getFeatureDefinitions_range env src bsc refs acc s = (Ret fs, s') ->
    length fs = length acc + length refs.
Proof.
  induction refs as [|ref rest IH]; intros acc s fs s' H; cbn [getFeatureDefinitions_range] in H.
  - injection H as <- <-. cbn. lia.
  - unfold bind at 1 in H. unfold logInfo, emit, modify in H. unfold bind at 1 in H.
    match type of H with context [getFeature env ?r bsc ?s0] =>
      destruct (getFeature env r bsc s0) as [[p| |] s1] end; try discriminate H.
    unfold bind at 1 in H.
    destruct (snd p) as [err|]; cbn in H; apply IH in H; rewrite length_app in H; cbn in *; lia.
Qed.

(** C1, as the code runs: for a source whose first reference is absent from
    the store, the resolved list is [nil; clicks]: the failed reference is
    logged and the next one is resolved, but a nil entry is kept in its
    place, and [handle] on that list dereferences it. *)
Theorem failed_feature_is_kept_as_nil :
  fst (getFeatureDefinitions demo.healthy
         (demo.source "streaming" "https://example.com/schemas#Order" ["missing"; "clicks"])
         (demo.streaming []) (initial demo.conn))
  = Ret [None; Some demo.clicks]
  /\ fst (handle demo.healthy 2 (demo.message []) (ExtractMetadata demo.memory (demo.message []))
            (demo.streaming [None; Some demo.clicks]) (initial demo.conn))
     = Panic "invalid memory address or nil pointer dereference".
Proof. split; vm_compute; reflexivity. Qed.

(** ** Consumer loop *)


(** C2, as the code runs: the pipeline fails on a nackable message (the
    execution call fails), and the worker calls [Nack] and then [Ack] on
    it. *)
Theorem failed_message_is_acked :
  let env := demo.failing in
  let msg := demo.message [("Content-Type", "application/json")] in
  let bs := demo.streaming [Some demo.clicks] in
  (exists fs err,
     fst (handle env 2 msg (ExtractMetadata demo.memory msg) bs (initial demo.conn))
     = Ret (fs, Some err))
  /\ List.filter (λ e, is_Ack e || is_Nack e)
       (trace (snd (consume env 2 bs msg (initial demo.conn))))
     = [EvNack msg; EvAck msg].
Proof.
  cbv zeta. split.
  - eexists _, _. vm_compute. reflexivity.
  - vm_compute. reflexivity.
Qed.

(** ** Source controller *)

Lemma Add_unsupported env src s :
  ds_Kind src <> "streaming" ->
  Add env src s =
  (Ret tt,
   mkState (m_cancel s) (m_bs s) false (m_conn s) (scopes s)
     (trace s ++ [EvLogError (errorString ("unsupported DataConenctor kind: " ++ ds_Kind src))
                             "kind is not streaming"])%list).
Proof.
  intros Hkind. apply String.eqb_neq in Hkind.
  unfold Add, bind, modify, logError, emit, modify. cbn. rewrite Hkind. reflexivity.
Qed.

(** [Update] cancels the stored scope first and then runs [Add]. *)
Lemma Update_unfold env old src s :
  Update env old src s = Add env src (cancel_stored s).
Proof.
  unfold Update, cancel_stored, bind, get_state, cancel, update_scope, modify, ret.
  destruct (m_cancel s); reflexivity.
Qed.

(** C8: a create or update notification for a source whose kind is not
    ["streaming"] returns with the readiness flag false, without a call to
    [Subscribe], without a new scope and without new workers. *)
Theorem unsupported_kind_starts_nothing env old src s :
  ds_Kind src <> "streaming" ->
  (exists s', Add env src s = (Ret tt, s')
     /\ m_ready s' = false
     /\ calls is_Subscribe (trace s') = calls is_Subscribe (trace s)
     /\ scopes s' = scopes s)
  /\ (exists s', Update env old src s = (Ret tt, s')
     /\ m_ready s' = false
     /\ calls is_Subscribe (trace s') = calls is_Subscribe (trace s)
     /\ length (scopes s') = length (scopes s)
     /\ map workers (scopes s') = map workers (scopes s)).
Proof.
  intros Hkind. split.
  - rewrite (Add_unsupported env src s Hkind). eexists. split; [reflexivity|].
    cbn [m_ready trace scopes]. rewrite calls_app. cbn. repeat split. lia.
  - rewrite Update_unfold, (Add_unsupported env src _ Hkind).
    eexists. split; [reflexivity|]. cbn [m_ready trace scopes].
    rewrite calls_app. unfold cancel_stored.
    destruct (m_cancel s) as [g|]; cbn [trace scopes set_m_bs set_scopes].
    + repeat split; [cbn; lia | apply length_alter |].
      apply list_eq. intros i. rewrite !list_lookup_fmap.
      destruct (decide (i = g)) as [->|Hne].
      * rewrite list_lookup_alter_eq. destruct (scopes s !! g); reflexivity.
      * rewrite list_lookup_alter_ne by congruence. reflexivity.
    + repeat split. cbn. lia.
Qed.

Lemma unsupported_kind_witness :
  let src := demo.source "batch" "" [] in
  (exists s', Add demo.healthy src demo.running = (Ret tt, s')
     /\ m_ready s' = false
     /\ calls is_Subscribe (trace s') = calls is_Subscribe (trace demo.running)
     /\ scopes s' = scopes demo.running)
  /\ (exists s', Update demo.healthy demo.orders src demo.running = (Ret tt, s')
     /\ m_ready s' = false
     /\ calls is_Subscribe (trace s') = calls is_Subscribe (trace demo.running)
     /\ length (scopes s') = length (scopes demo.running)
     /\ map workers (scopes s') = map workers (scopes demo.running)).
Proof.
  apply (unsupported_kind_starts_nothing demo.healthy demo.orders
           (demo.source "batch" "" []) demo.running).
  discriminate.
Defined.

(** With nothing stored in [m.cancel], [Update] is [Add]: no scope is
    cancelled. *)
Lemma Update_without_stored_scope env old src s :
  m_cancel s = None -> Update env old src s = Add env src s.
Proof.
  intros H. rewrite Update_unfold. unfold cancel_stored. rewrite H. reflexivity.
Qed.

(** The teardown task of any scope leaves [m.cancel] nil, whichever scope's
    cancel function was stored there. *)
Lemma teardown_clears_cancel env g s :
  m_cancel (snd (teardown_task env g s)) = None.
Proof.
  unfold teardown_task, subscription_Shutdown, update_scope, logError, emit, modify,
    get_state, bind, ret. cbn.
  destruct (Shutdown env (trace s) g); reflexivity.
Qed.

(** [run] follows the step relation. *)
Lemma run_steps env fuel schedule : forall s s',
  run env fuel schedule s = Some s' <-> steps env fuel s schedule s'.
Proof.
  induction schedule as [|a rest IH]; intros s s'; cbn [run]; split.
  - intros [= <-]. constructor.
  - intros H. inversion H. reflexivity.
  - destruct (enabled a s) eqn:Hen; [|discriminate].
    destruct (perform env fuel a s) as [[[]| |] s1] eqn:Hp; try discriminate.
    intros H. apply IH in H. econstructor; [constructor; eassumption | exact H].
  - intros H. inversion H as [|? ? s1 ? ? [Hen Hp] Hrest]; subst.
    rewrite Hen, Hp. apply IH. exact Hrest.
Qed.

(** With no other task in between, each update leaves one live scope. *)
Example sequential_updates_leave_one_generation :
  let src := demo.orders in
  option_map (λ s, map live (scopes s))
    (run demo.healthy 2 [OnAdd src; OnUpdate src src; OnUpdate src src] (initial demo.conn))
  = Some [false; false; true].
Proof. vm_compute. reflexivity. Qed.

(** C9, as the code runs: the source is added and updated once; the
    teardown task of the first scope then finishes and sets [m.cancel] to
    nil, which was holding the second scope's cancel function.  The next
    update finds [m.cancel] nil, cancels nothing and starts a third scope:
    the second and the third are both live, each with its worker. *)
Theorem update_after_teardown_keeps_old_generation :
  let src := demo.orders in
  let before := run demo.healthy 2 [OnAdd src; OnUpdate src src; RunTeardown 0] (initial demo.conn) in
  let after := run demo.healthy 2 [OnAdd src; OnUpdate src src; RunTeardown 0; OnUpdate src src]
                 (initial demo.conn) in
  option_map m_cancel before = Some None
  /\ option_map (λ s, map live (scopes s)) before = Some [false; true]
  /\ option_map (λ s, map cancelled (scopes s)) after = Some [true; false; false]
  /\ option_map (λ s, map workers (scopes s)) after = Some [1; 1; 1]
  /\ option_map live_scopes after = Some 2.
Proof. cbv zeta. repeat split; vm_compute; reflexivity. Qed.

(** * Further properties *)

(** ** Frames: what a computation adds to the trace *)

Lemma appends_only_refl P s : appends_only P s s.
Proof. exists []. split; [|reflexivity]. destruct s. cbn. rewrite app_nil_r. reflexivity. Qed.

Lemma appends_only_trans P s1 s2 s3 :
  appends_only P s1 s2 -> appends_only P s2 s3 -> appends_only P s1 s3.
Proof.
  intros (a & -> & Ha) (b & -> & Hb). exists (a ++ b)%list. split.
  - cbn. rewrite app_assoc. reflexivity.
  - rewrite forallb_app, Ha, Hb. reflexivity.
Qed.

Lemma appends_only_emit P s t :
  forallb P t = true -> appends_only P s (set_trace s (trace s ++ t)%list).
Proof. intros H. exists t. split; [reflexivity | exact H]. Qed.

Lemma appends_only_step P s s' t :
  forallb P t = true -> appends_only P s s' ->
  appends_only P s (set_trace s' (trace s' ++ t)%list).
Proof. intros Ht H. eapply appends_only_trans; [exact H | apply appends_only_emit, Ht]. Qed.

Lemma appends_only_weaken (P Q : Event -> bool) s s' :
  (forall e, P e = true -> Q e = true) -> appends_only P s s' -> appends_only Q s s'.
Proof.
  intros HPQ (a & -> & Ha). exists a. split; [reflexivity|].
  apply forallb_forall. intros e He. apply HPQ.
  rewrite forallb_forall in Ha. apply Ha, He.
Qed.

Lemma appends_only_calls (P q : Event -> bool) s s' :
  (forall e, P e = true -> q e = false) ->
  appends_only P s s' -> calls q (trace s') = calls q (trace s).
Proof.
  intros HPq (a & -> & Ha). cbn [trace set_trace]. rewrite calls_app.
  assert (calls q a = 0); [|lia].
  unfold calls. induction a as [|e a IH]; [reflexivity|].
  cbn in Ha. apply andb_prop in Ha. destruct Ha as (He & Ha).
  cbn. rewrite (HPq e He). apply IH, Ha.
Qed.

Lemma appends_only_fields P s s' :
  appends_only P s s' ->
  m_cancel s' = m_cancel s /\ m_bs s' = m_bs s /\ m_ready s' = m_ready s
  /\ m_conn s' = m_conn s /\ scopes s' = scopes s.
Proof. intros (a & -> & _). repeat split. Qed.

Lemma registerSchema_appends env schema s :
  appends_only (λ e, is_NewUUID e || is_RegisterSchema e) s (snd (registerSchema env schema s)).
Proof.
  rewrite registerSchema_run. cbv zeta. cbn [snd].
  eexists. rewrite <- app_assoc. split; reflexivity.
Qed.

Lemma registerProgram_appends env ft s :
  appends_only (λ e, is_NewUUID e || is_LoadPyExpProgram e) s (snd (registerProgram env ft s)).
Proof.
  rewrite registerProgram_run. cbv zeta. cbn [snd].
  eexists. rewrite <- app_assoc. split; reflexivity.
Qed.

Lemma registerSchema_resolver env schema s :
  appends_only resolver_event s (snd (registerSchema env schema s)).
Proof.
  eapply appends_only_weaken; [|apply registerSchema_appends]. intros []; cbn; congruence.
Qed.

Lemma registerProgram_resolver env ft s :
  appends_only resolver_event s (snd (registerProgram env ft s)).
Proof.
  eapply appends_only_weaken; [|apply registerProgram_appends]. intros []; cbn; congruence.
Qed.

Lemma registerProgram_pipeline env ft s :
  appends_only pipeline_event s (snd (registerProgram env ft s)).
Proof.
  eapply appends_only_weaken; [|apply registerProgram_appends]. intros []; cbn; congruence.
Qed.

Lemma getFeature_appends env ref bs s : appends_only resolver_event s (snd (getFeature env ref bs s)).
Proof.
  rewrite getFeature_unfold. cbv zeta.
  set (s1 := set_trace s _).
  assert (H1 : appends_only resolver_event s s1) by (apply appends_only_emit; reflexivity).
  assert (Hfin : forall ft s0, appends_only resolver_event s s0 ->
    appends_only resolver_event s (snd (match registerProgram env ft s0 with
                    | (Ret p, s') => (Ret (Some (fst p), snd p), s')
                    | (Panic r, s') => (Panic r, s')
                    | (OutOfFuel, s') => (@OutOfFuel (option Feature * option error), s')
                    end))).
  { intros ft s0 H0. pose proof (registerProgram_resolver env ft s0) as H.
    destruct (registerProgram env ft s0) as [[p| |] s2]; cbn [snd] in *;
      eapply appends_only_trans; eauto. }
  destruct (client_Get env _ _) as [obj|err]; [|exact H1].
  destruct (json_Unmarshal env _) as [[[kind schema] expression]|err]; [|exact H1].
  destruct (negb (String.eqb kind "streaming")); [exact H1|].
  destruct (negb (String.eqb schema "")).
  - destruct (url_Parse env schema) as [u|perr].
    + destruct (fully_qualified u).
      * destruct (bs_Schema bs) as [src|]; [|exact H1].
        destruct (negb (same_origin u src)); [|apply Hfin; exact H1].
        pose proof (registerSchema_resolver env schema s1) as H2.
        destruct (registerSchema env schema s1) as [[[e|]| |] s2]; cbn [snd] in *;
          try (eapply appends_only_trans; eauto; fail).
        apply Hfin. eapply appends_only_trans; eauto.
      * destruct (bs_Schema bs); [apply Hfin|]; exact H1.
    + destruct (bs_Schema bs); [apply Hfin|]; exact H1.
  - destruct (bs_Schema bs); [apply Hfin|]; exact H1.
Qed.

(** ** More on the feature resolver *)

Lemma get_keys_app t1 t2 : get_keys (t1 ++ t2) = (get_keys t1 ++ get_keys t2)%list.
Proof. unfold get_keys. apply flat_map_app. Qed.

Lemma exec_requests_app t1 t2 :
  exec_requests (t1 ++ t2) = (exec_requests t1 ++ exec_requests t2)%list.
Proof. unfold exec_requests. apply flat_map_app. Qed.

Lemma registerSchema_trace env schema s :
  exists id r,
    trace (snd (registerSchema env schema s))
    = (trace s ++ [EvNewUUID id; EvRegisterSchema (mkRegisterSchemaRequest id schema) r])%list.
Proof.
  rewrite registerSchema_run. cbv zeta. cbn [snd trace set_trace].
  eexists _, _. rewrite <- app_assoc. reflexivity.
Qed.

Lemma registerProgram_trace env ft s :
  exists id r,
    trace (snd (registerProgram env ft s))
    = (trace s ++ [EvNewUUID id;
                   EvLoadPyExpProgram (mkLoadPyExpProgramRequest id (Expression ft)) r])%list.
Proof.
  rewrite registerProgram_run. cbv zeta. cbn [snd trace set_trace].
  eexists _, _. rewrite <- app_assoc. reflexivity.
Qed.

(** X1: a reference whose lookup fails, whose builder does not decode, or
    whose kind is not ["streaming"] makes [getFeature] return nil with the
    matching error right after the store lookup: no runtime call is made
    and the source schema is not looked at. *)
Theorem getFeature_rejects_before_runtime env ref bs s :
  (forall err, client_Get env (trace s) (ref_ObjectKey ref) = inr err ->
     getFeature env ref bs s
     = (Ret (None, Some (wrapError "failed to fetch feature definition: %w" err)),
        set_trace s (trace s ++ [EvGet (ref_ObjectKey ref) (inr err)])%list))
  /\ (forall obj err,
      client_Get env (trace s) (ref_ObjectKey ref) = inl obj ->
      json_Unmarshal env (fo_Raw obj) = inr err ->
      getFeature env ref bs s
      = (Ret (None, Some (wrapError "failed to unmarshal feature definition: %w" err)),
         set_trace s (trace s ++ [EvGet (ref_ObjectKey ref) (inl obj)])%list))
  /\ (forall obj kind schema expression,
      client_Get env (trace s) (ref_ObjectKey ref) = inl obj ->
      json_Unmarshal env (fo_Raw obj) = inl (kind, schema, expression) ->
      kind <> "streaming" ->
      getFeature env ref bs s
      = (Ret (None, Some (errorString ("feature definition kind is not supported: " ++ kind))),
         set_trace s (trace s ++ [EvGet (ref_ObjectKey ref) (inl obj)])%list)).
Proof.
  repeat split.
  - intros err H. rewrite getFeature_unfold. cbv zeta. rewrite H. reflexivity.
  - intros obj err H Hj. rewrite getFeature_unfold. cbv zeta. rewrite H, Hj. reflexivity.
  - intros obj kind schema expression H Hj Hk. rewrite getFeature_unfold. cbv zeta.
    rewrite H, Hj. apply String.eqb_neq in Hk. rewrite Hk. reflexivity.
Qed.

Lemma getFeature_rejects_before_runtime_witness :
  fst (getFeature demo.healthy (mkRef "missing" "default") (demo.streaming []) (initial demo.conn))
  = Ret (None, Some (wrapError "failed to fetch feature definition: %w"
                       (errorString "features missing not found")))
  /\ fst (getFeature demo.healthy (mkRef "broken" "default") (demo.streaming [])
            (initial demo.conn))
     = Ret (None, Some (wrapError "failed to unmarshal feature definition: %w"
                          (errorString "unexpected end of JSON input")))
  /\ fst (getFeature demo.healthy (mkRef "batchy" "default") demo.schemaless
            (initial demo.conn))
     = Ret (None, Some (errorString "feature definition kind is not supported: batch")).
Proof.
  split; [|split].
  - destruct (getFeature_rejects_before_runtime demo.healthy (mkRef "missing" "default")
               (demo.streaming []) (initial demo.conn)) as (H & _).
    exact (f_equal fst (H (errorString "features missing not found") eq_refl)).
  - destruct (getFeature_rejects_before_runtime demo.healthy (mkRef "broken" "default")
               (demo.streaming []) (initial demo.conn)) as (_ & H & _).
    exact (f_equal fst (H (mkFeatureObject "{" "broken.default")
                          (errorString "unexpected end of JSON input") eq_refl eq_refl)).
  - destruct (getFeature_rejects_before_runtime demo.healthy (mkRef "batchy" "default")
               demo.schemaless (initial demo.conn)) as (_ & _ & H).
    refine (f_equal fst (H (mkFeatureObject "batchy.json" "batchy.default") "batch" "" "avg()"
                           eq_refl eq_refl _)).
    discriminate.
Defined.

Lemma getFeature_counts env ref bs s :
  let s' := snd (getFeature env ref bs s) in
  get_keys (trace s') = (get_keys (trace s) ++ [ref_ObjectKey ref])%list
  /\ calls is_RegisterSchema (trace s') <= calls is_RegisterSchema (trace s) + 1
  /\ calls is_LoadPyExpProgram (trace s') <= calls is_LoadPyExpProgram (trace s) + 1.
Proof.
  cbv zeta. rewrite getFeature_unfold. cbv zeta.
  set (s1 := set_trace s _).
  assert (H1 : trace s1 = (trace s ++ [EvGet (ref_ObjectKey ref)
                                        (client_Get env (trace s) (ref_ObjectKey ref))])%list)
    by reflexivity.
  clearbody s1.
  assert (Hfin : forall ft s0 n,
    get_keys (trace s0) = (get_keys (trace s) ++ [ref_ObjectKey ref])%list ->
    calls is_RegisterSchema (trace s0) <= calls is_RegisterSchema (trace s) + 1 ->
    calls is_LoadPyExpProgram (trace s0) = calls is_LoadPyExpProgram (trace s) ->
    n = snd (match registerProgram env ft s0 with
             | (Ret p, s') => (Ret (Some (fst p), snd p), s')
             | (Panic r, s') => (Panic r, s')
             | (OutOfFuel, s') => (@OutOfFuel (option Feature * option error), s')
             end) ->
    get_keys (trace n) = (get_keys (trace s) ++ [ref_ObjectKey ref])%list
    /\ calls is_RegisterSchema (trace n) <= calls is_RegisterSchema (trace s) + 1
    /\ calls is_LoadPyExpProgram (trace n) <= calls is_LoadPyExpProgram (trace s) + 1).
  { intros ft s0 n Hk Hr Hl ->.
    destruct (registerProgram_trace env ft s0) as (id & r & Ht).
    destruct (registerProgram env ft s0) as [[p| |] s2]; cbn [snd] in *;
      rewrite Ht, get_keys_app, !calls_app; cbn; rewrite app_nil_r; repeat split; lia || exact Hk. }
  assert (Hk1 : get_keys (trace s1) = (get_keys (trace s) ++ [ref_ObjectKey ref])%list).
  { rewrite H1, get_keys_app. reflexivity. }
  assert (Hr1 : calls is_RegisterSchema (trace s1) = calls is_RegisterSchema (trace s)).
  { rewrite H1, calls_app. cbn. lia. }
  assert (Hl1 : calls is_LoadPyExpProgram (trace s1) = calls is_LoadPyExpProgram (trace s)).
  { rewrite H1, calls_app. cbn. lia. }
  assert (Hstop : get_keys (trace s1) = (get_keys (trace s) ++ [ref_ObjectKey ref])%list
    /\ calls is_RegisterSchema (trace s1) <= calls is_RegisterSchema (trace s) + 1
    /\ calls is_LoadPyExpProgram (trace s1) <= calls is_LoadPyExpProgram (trace s) + 1)
    by (repeat split; [exact Hk1 | lia | lia]).
  destruct (client_Get env _ _) as [obj|err]; [|exact Hstop].
  destruct (json_Unmarshal env _) as [[[kind schema] expression]|err]; [|exact Hstop].
  destruct (negb (String.eqb kind "streaming")); [exact Hstop|].
  destruct (negb (String.eqb schema "")).
  - destruct (url_Parse env schema) as [u|perr].
    + destruct (fully_qualified u).
      * destruct (bs_Schema bs) as [src|]; [|exact Hstop].
        destruct (negb (same_origin u src));
          [|eapply Hfin; [exact Hk1 | lia | exact Hl1 | reflexivity]].
        destruct (registerSchema_trace env schema s1) as (id & r & Ht).
        destruct (registerSchema env schema s1) as [[[e|]| |] s2]; cbn [snd] in *;
          try (rewrite Ht, get_keys_app, !calls_app; cbn; rewrite app_nil_r;
               repeat split; [exact Hk1 | lia | lia]).
        eapply Hfin; [| | |reflexivity];
          rewrite Ht, ?get_keys_app, ?calls_app; cbn; rewrite ?app_nil_r;
          [exact Hk1 | lia | lia].
      * destruct (bs_Schema bs); [|exact Hstop].
        eapply Hfin; [exact Hk1 | lia | exact Hl1 | reflexivity].
    + destruct (bs_Schema bs); [|exact Hstop].
      eapply Hfin; [exact Hk1 | lia | exact Hl1 | reflexivity].
  - destruct (bs_Schema bs); [|exact Hstop].
    eapply Hfin; [exact Hk1 | lia | exact Hl1 | reflexivity].
Qed.

Lemma finish_fields env ft0 s0 ft' e s' :
  match registerProgram env ft0 s0 with
  | (Ret p, s') => (Ret (Some (fst p), snd p), s')
  | (Panic r, s') => (Panic r, s')
  | (OutOfFuel, s') => (OutOfFuel, s')
  end = (Ret (Some ft', e), s') ->
  same_definition ft0 ft'
  /\ (e = None ->
      exists id resp,
        trace s' = (trace s0 ++ [EvNewUUID id;
                      EvLoadPyExpProgram (mkLoadPyExpProgramRequest id (Expression ft0))
                                         (inl resp)])%list
        /\ lpr_Uuid resp = id
        /\ programSha1 ft' = lpr_ProgramSha1 resp)
  /\ (e <> None -> programSha1 ft' = programSha1 ft0).
Proof.
  rewrite registerProgram_run. cbv zeta.
  destruct (LoadPyExpProgram env _ _) as [resp|err] eqn:E.
  - destruct (String.eqb (lpr_Uuid resp) _) eqn:Eid; cbn [negb fst snd];
      intros [= <- <- <-]; (split; [repeat split|]); split; try discriminate; try congruence.
    intros _. apply String.eqb_eq in Eid. eexists _, resp.
    cbn [trace set_trace]. rewrite <- app_assoc. cbn. repeat split. exact Eid.
  - cbn [fst snd]. intros [= <- <- <-]. (split; [repeat split|]); split;
      try discriminate; congruence.
Qed.

(** X2: a feature [getFeature] hands back has kind ["streaming"], the FQN
    of the stored object and the decoded expression.  When no error comes
    with it, its fingerprint is the one in the runtime's answer to the
    program registration, and that answer echoed the id; when an error
    comes with it, the fingerprint is empty. *)
Theorem resolved_feature_fields env ref bs s ft' e s' obj kind schema expression :
  getFeature env ref bs s = (Ret (Some ft', e), s') ->
  client_Get env (trace s) (ref_ObjectKey ref) = inl obj ->
  json_Unmarshal env (fo_Raw obj) = inl (kind, schema, expression) ->
  Kind ft' = "streaming"
  /\ FQN ft' = fo_FQN obj
  /\ Expression ft' = expression
  /\ (e = None ->
      exists t id resp,
        trace s' = (t ++ [EvNewUUID id;
                          EvLoadPyExpProgram (mkLoadPyExpProgramRequest id expression)
                                             (inl resp)])%list
        /\ lpr_Uuid resp = id
        /\ programSha1 ft' = lpr_ProgramSha1 resp)
  /\ (e <> None -> programSha1 ft' = "").
Proof.
  intros Hrun Hget Hjson. rewrite getFeature_unfold in Hrun. cbv zeta in Hrun.
  rewrite Hget, Hjson in Hrun.
  destruct (String.eqb kind "streaming") eqn:Hk; cbn [negb] in Hrun; [|discriminate Hrun].
  apply String.eqb_eq in Hk. subst kind.
  assert (Hfin : forall ft0 s0,
    Kind ft0 = "streaming" -> FQN ft0 = fo_FQN obj -> Expression ft0 = expression ->
    programSha1 ft0 = "" ->
    match registerProgram env ft0 s0 with
    | (Ret p, s') => (Ret (Some (fst p), snd p), s')
    | (Panic r, s') => (Panic r, s')
    | (OutOfFuel, s') => (OutOfFuel, s')
    end = (Ret (Some ft', e), s') ->
    Kind ft' = "streaming" /\ FQN ft' = fo_FQN obj /\ Expression ft' = expression
    /\ (e = None ->
        exists t id resp,
          trace s' = (t ++ [EvNewUUID id;
                            EvLoadPyExpProgram (mkLoadPyExpProgramRequest id expression)
                                               (inl resp)])%list
          /\ lpr_Uuid resp = id /\ programSha1 ft' = lpr_ProgramSha1 resp)
    /\ (e <> None -> programSha1 ft' = "")).
  { intros ft0 s0 Hkind Hfqn Hexp Hsha H.
    apply finish_fields in H. destruct H as ((Hk' & Hf' & _ & He') & Hnone & Hsome).
    repeat split; try congruence.
    - intros He. destruct (Hnone He) as (id & resp & Ht & Hid & Hs).
      exists (trace s0), id, resp. rewrite <- Hexp. auto.
    - intros He. rewrite (Hsome He). exact Hsha. }
  destruct (negb (String.eqb schema "")).
  - destruct (url_Parse env schema) as [u|perr].
    + destruct (fully_qualified u).
      * destruct (bs_Schema bs) as [src|]; [|discriminate Hrun].
        destruct (negb (same_origin u src)); [|eapply Hfin; eauto; reflexivity].
        destruct (registerSchema env schema _) as [[[err|]| |] s2]; try discriminate Hrun.
        eapply Hfin; eauto; reflexivity.
      * destruct (bs_Schema bs); [|discriminate Hrun]. eapply Hfin; eauto; reflexivity.
    + destruct (bs_Schema bs); [|discriminate Hrun]. eapply Hfin; eauto; reflexivity.
  - destruct (bs_Schema bs); [|discriminate Hrun]. eapply Hfin; eauto; reflexivity.
Qed.

Lemma resolved_feature_fields_witness :
  Kind demo.clicks = "streaming"
  /\ FQN demo.clicks = "clicks.default"
  /\ Expression demo.clicks = "count()"
  /\ (@None error = None ->
      exists t id resp,
        trace (snd (getFeature demo.healthy (mkRef "clicks" "default") (demo.streaming [])
                      (initial demo.conn)))
        = (t ++ [EvNewUUID id;
                 EvLoadPyExpProgram (mkLoadPyExpProgramRequest id "count()") (inl resp)])%list
        /\ lpr_Uuid resp = id
        /\ programSha1 demo.clicks = lpr_ProgramSha1 resp)
  /\ (@None error <> None -> programSha1 demo.clicks = "").
Proof.
  apply (resolved_feature_fields demo.healthy (mkRef "clicks" "default") (demo.streaming [])
           (initial demo.conn) demo.clicks None _
           (mkFeatureObject "clicks.json" "clicks.default") "streaming" "" "count()").
  - vm_compute. reflexivity.
  - reflexivity.
  - reflexivity.
Defined.

(** X4: when the runtime refuses the schema of a feature whose fully
    qualified schema has another origin, [getFeature] returns nil with the
    twice wrapped error and does not register the program. *)
Theorem foreign_schema_must_register env ref bs s obj schema expression u src err :
  client_Get env (trace s) (ref_ObjectKey ref) = inl obj ->
  json_Unmarshal env (fo_Raw obj) = inl ("streaming", schema, expression) ->
  schema <> "" ->
  url_Parse env schema = inl u ->
  fully_qualified u = true ->
  bs_Schema bs = Some src ->
  same_origin u src = false ->
  schema_registration_fails env err ->
  fst (getFeature env ref bs s)
  = Ret (None, Some (wrapError "failed to register schema: %w"
                       (wrapError "failed to register schema: %w" err)))
  /\ calls is_LoadPyExpProgram (trace (snd (getFeature env ref bs s)))
     = calls is_LoadPyExpProgram (trace s).
Proof.
  intros Hget Hjson Hne Hu Hfq Hsrc Hso Hfail.
  rewrite getFeature_unfold. cbv zeta. rewrite Hget, Hjson, Hu, Hfq, Hsrc, Hso.
  apply String.eqb_neq in Hne. rewrite Hne. cbn [String.eqb Ascii.eqb Bool.eqb negb].
  rewrite registerSchema_run. cbv zeta. rewrite Hfail. cbn [fst snd trace set_trace].
  split; [reflexivity|]. rewrite !calls_app. cbn. lia.
Qed.

Lemma foreign_schema_must_register_witness :
  fst (getFeature cases.no_schemas (mkRef "foreign" "default") (demo.streaming [])
         (initial demo.conn))
  = Ret (None, Some (wrapError "failed to register schema: %w"
                       (wrapError "failed to register schema: %w" cases.unavailable)))
  /\ calls is_LoadPyExpProgram
       (trace (snd (getFeature cases.no_schemas (mkRef "foreign" "default") (demo.streaming [])
                      (initial demo.conn))))
     = calls is_LoadPyExpProgram (trace (initial demo.conn)).
Proof.
  apply (foreign_schema_must_register cases.no_schemas (mkRef "foreign" "default")
           (demo.streaming []) (initial demo.conn)
           (mkFeatureObject "foreign.json" "foreign.default")
           "https://other.example/schemas#Click" "max()"
           (url.mkURL "https" "" None "other.example" "/schemas" "" false "" "Click" "")
           demo.order_schema cases.unavailable);
    try reflexivity.
  - discriminate.
  - intros t req. reflexivity.
Defined.

(** X3: a fully qualified feature schema with the source's scheme and
    host is kept verbatim and causes no schema registration. *)
Theorem same_origin_schema_not_registered env ref bs s ft' e s' obj kind schema expression u src :
  getFeature env ref bs s = (Ret (Some ft', e), s') ->
  client_Get env (trace s) (ref_ObjectKey ref) = inl obj ->
  json_Unmarshal env (fo_Raw obj) = inl (kind, schema, expression) ->
  schema <> "" ->
  url_Parse env schema = inl u ->
  fully_qualified u = true ->
  bs_Schema bs = Some src ->
  same_origin u src = true ->
  Schema ft' = schema
  /\ calls is_RegisterSchema (trace s') = calls is_RegisterSchema (trace s).
Proof.
  intros Hrun Hget Hjson Hne Hu Hfq Hsrc Hso.
  rewrite getFeature_unfold in Hrun. cbv zeta in Hrun.
  rewrite Hget, Hjson, Hu, Hfq, Hsrc, Hso in Hrun.
  apply String.eqb_neq in Hne. rewrite Hne in Hrun.
  destruct (String.eqb kind "streaming"); cbn [negb] in Hrun; [|discriminate Hrun].
  finish_step Hrun. injection Hrun as <- <- <-. split; [exact Hs | lia].
Qed.

Lemma same_origin_schema_not_registered_witness :
  Schema (mkFeature "streaming" "clicks.default" "https://example.com/other#Click" "count()"
                    "sha1:count()")
  = "https://example.com/other#Click"
  /\ calls is_RegisterSchema
       (trace (snd (getFeature cases.sibling_schema (mkRef "clicks" "default")
                      (demo.streaming []) (initial demo.conn))))
     = calls is_RegisterSchema (trace (initial demo.conn)).
Proof.
  apply (same_origin_schema_not_registered cases.sibling_schema (mkRef "clicks" "default")
           (demo.streaming []) (initial demo.conn) _ None _
           (mkFeatureObject "clicks.json" "clicks.default") "streaming"
           "https://example.com/other#Click" "count()"
           (url.mkURL "https" "" None "example.com" "/other" "" false "" "Click" "")
           demo.order_schema);
    try reflexivity.
  discriminate.
Defined.

Lemma getFeature_kind env ref bs s ft' e s' :
  getFeature env ref bs s = (Ret (Some ft', e), s') -> Kind ft' = "streaming".
Proof.
  intros Hrun. rewrite getFeature_unfold in Hrun. cbv zeta in Hrun.
  destruct (client_Get env _ _) as [obj|err]; [|discriminate Hrun].
  destruct (json_Unmarshal env _) as [[[kind schema] expression]|err]; [|discriminate Hrun].
  destruct (String.eqb kind "streaming") eqn:Hk; cbn [negb] in Hrun; [|discriminate Hrun].
  apply String.eqb_eq in Hk. subst kind.
  assert (Hfin : forall ft0 s0,
    Kind ft0 = "streaming" ->
    match registerProgram env ft0 s0 with
    | (Ret p, s') => (Ret (Some (fst p), snd p), s')
    | (Panic r, s') => (Panic r, s')
    | (OutOfFuel, s') => (OutOfFuel, s')
    end = (Ret (Some ft', e), s') -> Kind ft' = "streaming").
  { intros ft0 s0 Hkind H. apply finish_fields in H. destruct H as ((Hk' & _) & _).
    congruence. }
  destruct (negb (String.eqb schema "")).
  - destruct (url_Parse env schema) as [u|perr].
    + destruct (fully_qualified u).
      * destruct (bs_Schema bs) as [src|]; [|discriminate Hrun].
        destruct (negb (same_origin u src)); [|eapply Hfin; eauto; reflexivity].
        destruct (registerSchema env schema _) as [[[err|]| |] s2]; try discriminate Hrun.
        eapply Hfin; eauto; reflexivity.
      * destruct (bs_Schema bs); [|discriminate Hrun]. eapply Hfin; eauto; reflexivity.
    + destruct (bs_Schema bs); [|discriminate Hrun]. eapply Hfin; eauto; reflexivity.
  - destruct (bs_Schema bs); [|discriminate Hrun]. eapply Hfin; eauto; reflexivity.
Qed.

Lemma getFeatureDefinitions_range_cons env src bsc ref rest acc s :
  getFeatureDefinitions_range env src bsc (ref :: rest) acc s =
  match getFeature env
          (if String.eqb (ref_Namespace ref) ""
           then mkRef (ref_Name ref) (ds_Namespace src) else ref)
          bsc
          (set_trace s (trace s ++ [EvLogInfo ("fetching feature definition: "
                                               ++ ref_Name ref)])%list) with
  | (Ret p, s1) =>
      getFeatureDefinitions_range env src bsc rest (acc ++ [fst p])%list
        match snd p with
        | Some err => set_trace s1 (trace s1 ++ [EvLogError err "failed to fetch feature"])%list
        | None => s1
        end
  | (Panic r, s1) => (Panic r, s1)
  | (OutOfFuel, s1) => (OutOfFuel, s1)
  end.
Proof.
  cbn [getFeatureDefinitions_range].
  unfold bind at 1. unfold logInfo, emit, modify. unfold bind at 1.
  destruct (getFeature env _ bsc _) as [[p| |] s1]; try reflexivity.
  unfold bind at 1. destruct (snd p); reflexivity.
Qed.

Lemma getFeatureDefinitions_range_spec env src bsc refs : forall acc s fs s',
  getFeatureDefinitions_range env src bsc refs acc s = (Ret fs, s') ->
  appends_only resolver_event s s'
  /\ get_keys (trace s') = (get_keys (trace s) ++ map (effective_key src) refs)%list
  /\ exists new, fs = (acc ++ new)%list /\ length new = length refs
       /\ Forall (λ entry, forall ft, entry = Some ft -> Kind ft = "streaming") new.
Proof.
  induction refs as [|ref rest IH]; intros acc s fs s' H.
  - injection H as <- <-. split; [apply appends_only_refl|]. split.
    + cbn. rewrite app_nil_r. reflexivity.
    + exists []. rewrite app_nil_r. repeat split. constructor.
  - rewrite getFeatureDefinitions_range_cons in H.
    match type of H with context [getFeature env ?r bsc ?s0] =>
      pose proof (getFeature_appends env r bsc s0) as Happ;
      pose proof (getFeature_counts env r bsc s0) as (Hkeys & _);
      pose proof (getFeature_kind env r bsc s0) as Hkind;
      destruct (getFeature env r bsc s0) as [[p| |] s1] end; try discriminate H.
    cbn [snd] in Happ, Hkeys. cbn [trace set_trace] in Hkeys.
    rewrite get_keys_app in Hkeys. cbn in Hkeys. rewrite app_nil_r in Hkeys.
    assert (Hs1 : appends_only resolver_event s s1)
      by ((eapply appends_only_trans; [|exact Happ]; apply appends_only_emit; reflexivity)).
    apply IH in H. destruct H as (Happ3 & Hk3 & new & -> & Hlen & Hall).
    split.
    { eapply appends_only_trans; [|exact Happ3].
      destruct (snd p); [apply appends_only_step; [reflexivity|]|]; exact Hs1. }
    split.
    { rewrite Hk3.
      replace (get_keys (trace match snd p with
                               | Some err => set_trace s1 (trace s1 ++
                                   [EvLogError err "failed to fetch feature"])%list
                               | None => s1
                               end)) with (get_keys (trace s1)).
      - rewrite Hkeys. cbn [map]. rewrite <- app_assoc.
        unfold effective_key, ref_ObjectKey.
        destruct (String.eqb (ref_Namespace ref) ""); reflexivity.
      - destruct (snd p); [|reflexivity]. cbn [trace set_trace].
        rewrite get_keys_app. cbn. rewrite app_nil_r. reflexivity. }
    exists (fst p :: new). split; [rewrite <- app_assoc; reflexivity|].
    split; [cbn; lia|]. constructor; [|exact Hall].
    intros ft Hft. destruct p as [o e]. cbn in Hft. subst o.
    eapply Hkind. reflexivity.
Qed.

Lemma getFeatureDefinitions_length env src bsc s fs s' :
  getFeatureDefinitions env src bsc s = (Ret fs, s') -> length fs = length (ds_Features src).
Proof.
  unfold getFeatureDefinitions, bind, logInfo, emit, modify. intros H.
  apply getFeatureDefinitions_range_spec in H.
  destruct H as (_ & _ & new & -> & Hlen & _). exact Hlen.
Qed.

(** Whatever the outcome, the loop registers at most one schema and one
    program per reference. *)
Lemma getFeatureDefinitions_range_counts env src bsc refs : forall acc s,
  let s' := snd (getFeatureDefinitions_range env src bsc refs acc s) in
  calls is_RegisterSchema (trace s') <= calls is_RegisterSchema (trace s) + length refs
  /\ calls is_LoadPyExpProgram (trace s') <= calls is_LoadPyExpProgram (trace s) + length refs.
Proof.
  induction refs as [|ref rest IH]; intros acc s; cbv zeta.
  - cbn. lia.
  - rewrite getFeatureDefinitions_range_cons.
    match goal with |- context [getFeature env ?r bsc ?s0] =>
      pose proof (getFeature_counts env r bsc s0) as (_ & Hr & Hl);
      destruct (getFeature env r bsc s0) as [[p| |] s1] end;
      cbn [snd trace set_trace] in Hr, Hl; rewrite !calls_app in Hr, Hl; cbn in Hr, Hl;
      cbn [snd length]; try lia.
    match goal with |- context [getFeatureDefinitions_range env src bsc rest ?a ?s2] =>
      pose proof (IH a s2) as Hrec; cbv zeta in Hrec;
      assert (Hsame : calls is_RegisterSchema (trace s2) = calls is_RegisterSchema (trace s1)
                      /\ calls is_LoadPyExpProgram (trace s2)
                         = calls is_LoadPyExpProgram (trace s1))
        by (destruct (snd p); cbn [trace set_trace]; rewrite ?calls_app; cbn; lia)
    end.
    lia.
Qed.

(** X5: when [getFeatureDefinitions] returns, the list has one entry per
    reference; the store was asked once per reference, in order, under the
    reference's namespace, or the source's when the reference has none;
    every non-nil entry is a streaming feature; at most one schema and one
    program were registered per reference; and only resolver events were
    added to the trace, the manager's fields and the scopes being as
    before. *)
Theorem getFeatureDefinitions_entries env src bsc s fs s' :
  getFeatureDefinitions env src bsc s = (Ret fs, s') ->
  length fs = length (ds_Features src)
  /\ get_keys (trace s') = (get_keys (trace s) ++ map (effective_key src) (ds_Features src))%list
  /\ Forall (λ entry, forall ft, entry = Some ft -> Kind ft = "streaming") fs
  /\ calls is_RegisterSchema (trace s')
     <= calls is_RegisterSchema (trace s) + length (ds_Features src)
  /\ calls is_LoadPyExpProgram (trace s')
     <= calls is_LoadPyExpProgram (trace s) + length (ds_Features src)
  /\ appends_only resolver_event s s'.
Proof.
  unfold getFeatureDefinitions, bind, logInfo, emit, modify. intros H.
  pose proof (getFeatureDefinitions_range_counts env src bsc (ds_Features src) []
                (set_trace s (trace s ++ [EvLogInfo "fetching feature definitions..."])%list))
    as Hcounts.
  cbv zeta in Hcounts. rewrite H in Hcounts. cbn [snd trace set_trace] in Hcounts.
  rewrite !calls_app in Hcounts. cbn in Hcounts.
  apply getFeatureDefinitions_range_spec in H.
  destruct H as (Happ & Hk & new & -> & Hlen & Hall).
  cbn [trace set_trace] in Hk. rewrite get_keys_app in Hk. cbn in Hk.
  rewrite app_nil_r in Hk.
  repeat split; try assumption; try lia.
  eapply appends_only_trans; [|exact Happ]. apply appends_only_emit; reflexivity.
Qed.

Lemma getFeatureDefinitions_entries_witness :
  let src := demo.source "streaming" "https://example.com/schemas#Order" ["clicks"; "batchy"] in
  let s' := snd (getFeatureDefinitions demo.healthy src (demo.streaming []) (initial demo.conn)) in
  length [Some demo.clicks; None] = length (ds_Features src)
  /\ get_keys (trace s')
     = (get_keys (trace (initial demo.conn)) ++ map (effective_key src) (ds_Features src))%list
  /\ Forall (λ entry, forall ft, entry = Some ft -> Kind ft = "streaming")
            [Some demo.clicks; None]
  /\ calls is_RegisterSchema (trace s')
     <= calls is_RegisterSchema (trace (initial demo.conn)) + length (ds_Features src)
  /\ calls is_LoadPyExpProgram (trace s')
     <= calls is_LoadPyExpProgram (trace (initial demo.conn)) + length (ds_Features src)
  /\ appends_only resolver_event (initial demo.conn) s'.
Proof.
  apply (getFeatureDefinitions_entries demo.healthy
           (demo.source "streaming" "https://example.com/schemas#Order" ["clicks"; "batchy"])
           (demo.streaming []) (initial demo.conn)).
  vm_compute. reflexivity.
Defined.

Lemma getFeature_not_out_of_fuel env ref bs s :
  fst (getFeature env ref bs s) <> OutOfFuel.
Proof.
  rewrite getFeature_unfold. cbv zeta.
  destruct (client_Get env _ _) as [obj|err]; [|discriminate].
  destruct (json_Unmarshal env _) as [[[kind schema] expression]|err]; [|discriminate].
  destruct (negb (String.eqb kind "streaming")); [discriminate|].
  destruct (negb (String.eqb schema "")); [destruct (url_Parse env schema) as [u|perr];
    [destruct (fully_qualified u)|]|];
  (destruct (bs_Schema bs) as [src|]; [|discriminate]);
  try (destruct (negb (same_origin u src)); [rewrite registerSchema_run; cbv zeta;
       match goal with |- context [RegisterSchema env ?t ?r] =>
         destruct (RegisterSchema env t r) as [resp|err] end;
       [destruct (negb _)|]; try discriminate|]);
  rewrite registerProgram_run; cbv zeta; discriminate.
Qed.

Lemma getFeatureDefinitions_range_appends env src bsc refs : forall acc s,
  appends_only resolver_event s (snd (getFeatureDefinitions_range env src bsc refs acc s))
  /\ fst (getFeatureDefinitions_range env src bsc refs acc s) <> OutOfFuel.
Proof.
  induction refs as [|ref rest IH]; intros acc s.
  - split; [apply appends_only_refl | discriminate].
  - rewrite getFeatureDefinitions_range_cons.
    match goal with |- context [getFeature env ?r bsc ?s1] =>
      pose proof (getFeature_appends env r bsc s1) as Happ;
      pose proof (getFeature_not_out_of_fuel env r bsc s1) as Hfuel;
      destruct (getFeature env r bsc s1) as [[p| |] s2] end; cbn [snd fst] in *.
    + assert (Hs2 : appends_only resolver_event s s2) by ((eapply appends_only_trans; [|exact Happ]; apply appends_only_emit; reflexivity)).
      match goal with |- context [getFeatureDefinitions_range env src bsc rest ?a ?s3] =>
        destruct (IH a s3) as (H1 & H2) end.
      split; [|exact H2]. eapply appends_only_trans; [|exact H1].
      destruct (snd p); [apply appends_only_step; [reflexivity|]|]; exact Hs2.
    + split; [|discriminate]. (eapply appends_only_trans; [|exact Happ]; apply appends_only_emit; reflexivity).
    + congruence.
Qed.

Lemma getFeatureDefinitions_appends env src bsc s :
  appends_only resolver_event s (snd (getFeatureDefinitions env src bsc s))
  /\ fst (getFeatureDefinitions env src bsc s) <> OutOfFuel.
Proof.
  unfold getFeatureDefinitions, bind, logInfo, emit, modify. cbn.
  match goal with |- context [getFeatureDefinitions_range env src bsc ?r ?a ?s1] =>
    destruct (getFeatureDefinitions_range_appends env src bsc r a s1) as (H1 & H2);
    destruct (getFeatureDefinitions_range env src bsc r a s1) as [[fs| |] s2] end;
    cbn [fst snd] in *; (split; [(eapply appends_only_trans; [|exact H1]; apply appends_only_emit; reflexivity)|]);
    congruence.
Qed.

(** ** More on the execution pipeline *)

Lemma same_definition_refl ft : same_definition ft ft.
Proof. repeat split. Qed.

Lemma cases_encodes : encodes cases.no_programs.
Proof. repeat split; intros; eexists; reflexivity. Defined.

Lemma same_definition_trans a b c :
  same_definition a b -> same_definition b c -> same_definition a c.
Proof. unfold same_definition. intuition congruence. Qed.

Lemma registerProgram_same_definition env ft s p s' :
  registerProgram env ft s = (Ret p, s') -> same_definition ft (fst p).
Proof.
  rewrite registerProgram_run. cbv zeta. intros [= <- _].
  destruct (LoadPyExpProgram env _ _) as [resp|err]; [destruct (negb _)|]; repeat split.
Qed.

Lemma execute_frame env fuel : forall tries req ft s,
  appends_only pipeline_event s (snd (execute env fuel tries req ft s))
  /\ forall ft' e, fst (execute env fuel tries req ft s) = Ret (ft', e) -> same_definition ft ft'.
Proof.
  induction fuel as [|fuel IH]; intros tries req ft s; rewrite execute_unfold; cbv zeta;
    set (s1 := set_trace s _);
    (assert (H1 : appends_only pipeline_event s s1) by (apply appends_only_emit; reflexivity));
    (assert (Hstop : forall e0 : option error, appends_only pipeline_event s (snd (Ret (ft, e0), s1))
        /\ forall ft' e, fst (Ret (ft, e0), s1) = Ret (ft', e) -> same_definition ft ft')
      by (intros e0; split; [exact H1 | intros ft' ? [= <- _]; apply same_definition_refl]));
    (destruct (ExecutePyExp env (trace s) req) as [resp|err];
     [destruct (negb _); apply Hstop|]);
    (destruct (codes.eqb _ _); [|apply Hstop]);
    pose proof (registerProgram_pipeline env ft s1) as H2;
    pose proof (registerProgram_same_definition env ft s1) as Hd;
    (destruct (registerProgram env ft s1) as [[p| |] s2]; cbn [snd] in H2;
     [|split; [eapply appends_only_trans; eauto | discriminate] ..]);
    specialize (Hd p s2 eq_refl);
    (assert (H12 : appends_only pipeline_event s s2) by (eapply appends_only_trans; eauto));
    (destruct (snd p);
     [split; [exact H12 | intros ft' ? [= <- _]; exact Hd]|]);
    (destruct (tries <? 3)%Z;
     [|split; [exact H12 | intros ft' ? [= <- _]; exact Hd]]).
  - split; [exact H12 | discriminate].
  - destruct (IH (tries + 1)%Z req (fst p) s2) as (Ha & Hs). split.
    + eapply appends_only_trans; eauto.
    + intros ft' e0 He. eapply same_definition_trans; [exact Hd | eapply Hs; exact He].
Qed.

Lemma execute_requests env fuel : forall tries req ft s,
  (1 <= tries <= 3)%Z ->
  exists n,
    1 <= n <= Z.to_nat (3 - tries) + 1
    /\ exec_requests (trace (snd (execute env fuel tries req ft s)))
       = (exec_requests (trace s) ++ repeat req n)%list
    /\ calls is_LoadPyExpProgram (trace (snd (execute env fuel tries req ft s)))
       <= calls is_LoadPyExpProgram (trace s) + n.
Proof.
  induction fuel as [|fuel IH]; intros tries req ft s Htries; rewrite execute_unfold; cbv zeta;
    set (s1 := set_trace s _);
    (assert (Hr1 : exec_requests (trace s1) = (exec_requests (trace s) ++ repeat req 1)%list)
      by (unfold s1; cbn [trace set_trace]; rewrite exec_requests_app; reflexivity));
    (assert (Hl1 : calls is_LoadPyExpProgram (trace s1) = calls is_LoadPyExpProgram (trace s))
      by (unfold s1; cbn [trace set_trace]; rewrite calls_app; cbn; lia));
    clearbody s1;
    (assert (Hstop : 1 <= 1 <= Z.to_nat (3 - tries) + 1
        /\ exec_requests (trace s1) = (exec_requests (trace s) ++ repeat req 1)%list
        /\ calls is_LoadPyExpProgram (trace s1) <= calls is_LoadPyExpProgram (trace s) + 1)
      by (split; [lia | split; [exact Hr1 | lia]]));
    (destruct (ExecutePyExp env (trace s) req) as [resp|err];
     [destruct (negb _); exists 1; exact Hstop|]);
    (destruct (codes.eqb _ _); [|exists 1; exact Hstop]);
    destruct (registerProgram_trace env ft s1) as (id & r & Ht);
    (assert (Hr2 : exec_requests (trace (snd (registerProgram env ft s1)))
                   = (exec_requests (trace s) ++ repeat req 1)%list)
      by (rewrite Ht, exec_requests_app; cbn; rewrite app_nil_r; exact Hr1));
    (assert (Hl2 : calls is_LoadPyExpProgram (trace (snd (registerProgram env ft s1)))
                   = calls is_LoadPyExpProgram (trace s) + 1)
      by (rewrite Ht, calls_app; cbn; lia));
    clear Ht;
    (assert (Hstop2 : 1 <= 1 <= Z.to_nat (3 - tries) + 1
        /\ exec_requests (trace (snd (registerProgram env ft s1)))
           = (exec_requests (trace s) ++ repeat req 1)%list
        /\ calls is_LoadPyExpProgram (trace (snd (registerProgram env ft s1)))
           <= calls is_LoadPyExpProgram (trace s) + 1)
      by (split; [lia | split; [exact Hr2 | lia]]));
    (destruct (registerProgram env ft s1) as [[p| |] s2]; cbn [snd] in *;
     [|exists 1; exact Hstop2 ..]);
    (destruct (snd p); [exists 1; exact Hstop2|]);
    (destruct (Z.ltb_spec tries 3); [|exists 1; exact Hstop2]).
  - exists 1. exact Hstop2.
  - destruct (IH (tries + 1)%Z req (fst p) s2 ltac:(lia)) as (n & Hn & Hr & Hl).
    exists (S n). split; [lia|]. split.
    + rewrite Hr, Hr2, <- app_assoc. reflexivity.
    + lia.
Qed.

(** X6: whatever the runtime answers, [handle] makes at most 3 execution
    calls for one feature, all of them with the same request, which carries
    the FQN and the fingerprint the feature had before the first attempt
    (also after a re-registration has replaced that fingerprint), and at
    most as many registrations as execution calls. *)
Theorem handle_feature_attempts env fuel msg md ft s :
  let s' := snd (handle_feature env fuel msg md ft s) in
  exists n req,
    n <= 3
    /\ exec_requests (trace s') = (exec_requests (trace s) ++ repeat req n)%list
    /\ ex_Fqn req = FQN ft
    /\ ex_ProgramSha1 req = programSha1 ft
    /\ calls is_LoadPyExpProgram (trace s') <= calls is_LoadPyExpProgram (trace s) + n.
Proof.
  cbv zeta. rewrite handle_feature_unfold. cbv zeta.
  assert (Hnone : exists n req, n <= 3
    /\ exec_requests (trace s) = (exec_requests (trace s) ++ repeat req n)%list
    /\ ex_Fqn req = FQN ft /\ ex_ProgramSha1 req = programSha1 ft
    /\ calls is_LoadPyExpProgram (trace s) <= calls is_LoadPyExpProgram (trace s) + n).
  { exists 0, (mkExecutePyExpRequest "" (FQN ft) (programSha1 ft) None (mkAny "" "")).
    cbn. rewrite app_nil_r. repeat split; lia. }
  destruct (SetData env _ _ _) as [ev|err]; [|exact Hnone].
  destruct (ToProto env ev) as [pb|err]; [|exact Hnone].
  destruct (anypb_New env pb) as [data|err]; [|exact Hnone].
  match goal with |- context [execute env fuel 1%Z ?req ft ?s0] =>
    destruct (execute_requests env fuel 1%Z req ft s0 ltac:(lia)) as (n & Hn & Hr & Hl);
    exists n, req end.
  cbn [trace set_trace] in Hr, Hl. rewrite exec_requests_app in Hr. rewrite calls_app in Hl.
  cbn in Hr, Hl. rewrite app_nil_r in Hr.
  split; [cbn in Hn; lia|]. split; [exact Hr|]. repeat split. lia.
Qed.

Lemma handle_feature_frame env fuel msg md ft s :
  appends_only pipeline_event s (snd (handle_feature env fuel msg md ft s))
  /\ forall ft' e, fst (handle_feature env fuel msg md ft s) = Ret (ft', e) ->
       same_definition ft ft'.
Proof.
  rewrite handle_feature_unfold. cbv zeta.
  assert (Hstop : forall e0 : option error, appends_only pipeline_event s (snd (Ret (ft, e0), s))
        /\ forall ft' e, fst (Ret (ft, e0), s) = Ret (ft', e) -> same_definition ft ft')
    by (intros e0; split; [apply appends_only_refl | intros ft' ? [= <- _]; apply same_definition_refl]).
  destruct (SetData env _ _ _) as [ev|err]; [|apply Hstop].
  destruct (ToProto env ev) as [pb|err]; [|apply Hstop].
  destruct (anypb_New env pb) as [data|err]; [|apply Hstop].
  match goal with |- context [execute env fuel 1%Z ?req ft ?s0] =>
    destruct (execute_frame env fuel 1%Z req ft s0) as (Ha & Hs) end.
  split; [(eapply appends_only_trans; [|exact Ha]; apply appends_only_emit; reflexivity) | exact Hs].
Qed.

Lemma handle_range_cons env fuel msg md done ft rest s :
  handle_range env fuel msg md done (Some ft :: rest) s =
  match handle_feature env fuel msg md ft s with
  | (Ret p, s1) =>
      match snd p with
      | Some err => (Ret ((done ++ Some (fst p) :: rest)%list, Some err), s1)
      | None => handle_range env fuel msg md (done ++ [Some (fst p)])%list rest s1
      end
  | (Panic r, s1) => (Panic r, s1)
  | (OutOfFuel, s1) => (OutOfFuel, s1)
  end.
Proof.
  cbn [handle_range]. unfold bind.
  destruct (handle_feature env fuel msg md ft s) as [[p| |] s1]; try reflexivity.
  destruct (snd p); reflexivity.
Qed.

Lemma same_entry_refl l : Forall2 same_entry l l.
Proof.
  induction l as [|[ft|] l IH]; constructor; try exact IH; cbn; auto using same_definition_refl.
Qed.

Lemma handle_range_frame env fuel msg md todo : forall done s fs e s',
  handle_range env fuel msg md done todo s = (Ret (fs, e), s') ->
  appends_only pipeline_event s s'
  /\ exists new, fs = (done ++ new)%list /\ Forall2 same_entry todo new.
Proof.
  induction todo as [|[ft|] rest IH]; intros done s fs e s' H.
  - injection H as <- <- <-. split; [apply appends_only_refl|].
    exists []. rewrite app_nil_r. split; [reflexivity | constructor].
  - rewrite handle_range_cons in H.
    destruct (handle_feature_frame env fuel msg md ft s) as (Ha & Hs).
    destruct (handle_feature env fuel msg md ft s) as [[p| |] s1]; try discriminate H.
    cbn [fst snd] in Ha, Hs. specialize (Hs (fst p) (snd p)).
    assert (Hd : same_definition ft (fst p)) by (apply Hs; destruct p; reflexivity).
    destruct (snd p) as [err|].
    + injection H as <- <- <-. split; [exact Ha|].
      eexists. split; [reflexivity|]. constructor; [exact Hd | apply same_entry_refl].
    + apply IH in H. destruct H as (Ha2 & new & -> & Hnew).
      split; [eapply appends_only_trans; eauto|].
      exists (Some (fst p) :: new). rewrite <- app_assoc. split; [reflexivity|].
      constructor; [exact Hd | exact Hnew].
  - cbn in H. discriminate H.
Qed.

(** X7: when [handle] returns, with or without an error, the feature list
    has kept its length and order, every entry differs from the former one
    at most in its fingerprint, and only id draws and runtime calls were
    added to the trace, the manager's fields and the scopes being as
    before. *)
Theorem handle_keeps_definitions env fuel msg md bs s fs e s' :
  handle env fuel msg md bs s = (Ret (fs, e), s') ->
  Forall2 same_entry (features bs) fs /\ appends_only pipeline_event s s'.
Proof.
  unfold handle. intros H. apply handle_range_frame in H.
  destruct H as (Ha & new & -> & Hnew). split; [exact Hnew | exact Ha].
Qed.

Lemma handle_keeps_definitions_witness :
  Forall2 same_entry (features (demo.streaming [Some demo.clicks; Some demo.views]))
          [Some demo.clicks; Some demo.views]
  /\ appends_only pipeline_event (initial demo.conn)
       (snd (handle demo.flaky 2 cases.order (ExtractMetadata demo.memory cases.order)
               (demo.streaming [Some demo.clicks; Some demo.views]) (initial demo.conn))).
Proof.
  apply (handle_keeps_definitions demo.flaky 2 cases.order
           (ExtractMetadata demo.memory cases.order)
           (demo.streaming [Some demo.clicks; Some demo.views]) (initial demo.conn)
           [Some demo.clicks; Some demo.views] None).
  vm_compute. reflexivity.
Defined.

(** X8: when the envelope can be built and every execution call succeeds,
    the pipeline over [n] features returns no error after exactly [n]
    execution calls and no registration, and leaves the features as they
    were. *)
Theorem handle_serves_every_feature env fuel msg md fts : forall done s,
  encodes env ->
  (forall i, i < length fts -> answers_echo env (calls is_ExecutePyExp (trace s) + i)) ->
  exists s',
    handle_range env fuel msg md done (map Some fts) s
    = (Ret ((done ++ map Some fts)%list, None), s')
    /\ calls is_ExecutePyExp (trace s') = calls is_ExecutePyExp (trace s) + length fts
    /\ calls is_LoadPyExpProgram (trace s') = calls is_LoadPyExpProgram (trace s).
Proof.
  induction fts as [|ft rest IH]; intros done s Henc Hok.
  - exists s. cbn. rewrite app_nil_r. repeat split; lia.
  - cbn [map]. rewrite handle_range_cons, handle_feature_unfold. cbv zeta.
    destruct Henc as (Hdata & Hproto & Hany).
    edestruct Hdata as (ev & ->). edestruct Hproto as (pb & ->).
    edestruct Hany as (data & ->).
    match goal with |- context [execute env fuel 1%Z ?req ft ?s0] =>
      destruct (execute_success env fuel 1%Z req ft s0) as (s1 & -> & He & Hl) end.
    { cbn [trace set_trace]. rewrite calls_app. cbn.
      specialize (Hok 0 ltac:(cbn; lia)). rewrite !Nat.add_0_r in *. exact Hok. }
    cbn [fst snd]. cbn [trace set_trace] in He, Hl. rewrite calls_app in He, Hl.
    cbn in He, Hl.
    destruct (IH (done ++ [Some ft])%list s1) as (s2 & -> & He2 & Hl2).
    + repeat split; assumption.
    + intros i Hi. replace (calls is_ExecutePyExp (trace s1) + i)
        with (calls is_ExecutePyExp (trace s) + S i) by lia.
      apply Hok. cbn. lia.
    + exists s2. rewrite <- app_assoc. split; [reflexivity|]. cbn [length]. lia.
Qed.

Lemma handle_serves_every_feature_witness :
  exists s',
    handle_range demo.healthy 2 cases.order (ExtractMetadata demo.memory cases.order) []
      (map Some [demo.clicks; demo.views]) (initial demo.conn)
    = (Ret (([] ++ map Some [demo.clicks; demo.views])%list, None), s')
    /\ calls is_ExecutePyExp (trace s')
       = calls is_ExecutePyExp (trace (initial demo.conn)) + length [demo.clicks; demo.views]
    /\ calls is_LoadPyExpProgram (trace s')
       = calls is_LoadPyExpProgram (trace (initial demo.conn)).
Proof.
  apply (handle_serves_every_feature demo.healthy 2 cases.order
           (ExtractMetadata demo.memory cases.order) [demo.clicks; demo.views] []
           (initial demo.conn)).
  - apply demo_encodes.
  - intros i _ t req Ht. eexists. cbn in *.
    destruct (calls is_ExecutePyExp t) as [|[|n]]; split; reflexivity.
Defined.

(** X9: an execution error whose code is not [NotFound] ends the pipeline
    at once with that error wrapped: one execution call, no
    re-registration, the feature and the ones after it left as they
    were. *)
Theorem handle_stops_at_other_errors env fuel msg md done ft rest s err :
  encodes env ->
  (forall t req, calls is_ExecutePyExp t = calls is_ExecutePyExp (trace s) ->
     ExecutePyExp env t req = inr err) ->
  status.Code err <> codes.NotFound ->
  exists s',
    handle_range env fuel msg md done (Some ft :: rest) s
    = (Ret ((done ++ Some ft :: rest)%list,
            Some (wrapError "failed to execute program: %w" err)), s')
    /\ calls is_ExecutePyExp (trace s') = calls is_ExecutePyExp (trace s) + 1
    /\ calls is_LoadPyExpProgram (trace s') = calls is_LoadPyExpProgram (trace s).
Proof.
  intros (Hdata & Hproto & Hany) Herr Hcode.
  rewrite handle_range_cons, handle_feature_unfold. cbv zeta.
  edestruct Hdata as (ev & ->). edestruct Hproto as (pb & ->).
  edestruct Hany as (data & ->).
  rewrite execute_unfold. cbv zeta. cbn [trace set_trace].
  rewrite Herr by (rewrite calls_app; cbn; lia).
  assert (Hc : codes.eqb (status.Code err) codes.NotFound = false)
    by (destruct (status.Code err); try reflexivity; congruence).
  rewrite Hc. cbn [fst snd]. eexists. split; [reflexivity|].
  cbn [trace set_trace]. rewrite !calls_app. cbn. lia.
Qed.

Lemma handle_stops_at_other_errors_witness :
  exists s',
    handle_range demo.failing 2 cases.order (ExtractMetadata demo.memory cases.order) []
      [Some demo.clicks; Some demo.views] (initial demo.conn)
    = (Ret (([] ++ [Some demo.clicks; Some demo.views])%list,
            Some (wrapError "failed to execute program: %w" demo.internal)), s')
    /\ calls is_ExecutePyExp (trace s') = calls is_ExecutePyExp (trace (initial demo.conn)) + 1
    /\ calls is_LoadPyExpProgram (trace s')
       = calls is_LoadPyExpProgram (trace (initial demo.conn)).
Proof.
  apply (handle_stops_at_other_errors demo.failing 2 cases.order
           (ExtractMetadata demo.memory cases.order) [] demo.clicks [Some demo.views]
           (initial demo.conn) demo.internal).
  - apply demo_encodes.
  - intros t req Ht. cbn in *. rewrite Ht. reflexivity.
  - discriminate.
Defined.

(** X10: when the program is not found and the re-registration fails,
    the pipeline returns the registration error after that one execution
    call and that one registration: there is no second attempt. *)
Theorem handle_stops_when_reregistration_fails env fuel msg md done ft rest s rerr :
  encodes env ->
  answers_not_found env (calls is_ExecutePyExp (trace s)) ->
  (forall t req, calls is_LoadPyExpProgram t = calls is_LoadPyExpProgram (trace s) ->
     LoadPyExpProgram env t req = inr rerr) ->
  exists s',
    handle_range env fuel msg md done (Some ft :: rest) s
    = (Ret ((done ++ Some ft :: rest)%list,
            Some (wrapError "failed to register program: %w"
                    (wrapError "failed to register program: %w" rerr))), s')
    /\ calls is_ExecutePyExp (trace s') = calls is_ExecutePyExp (trace s) + 1
    /\ calls is_LoadPyExpProgram (trace s') = calls is_LoadPyExpProgram (trace s) + 1.
Proof.
  intros (Hdata & Hproto & Hany) Hnf Hreg.
  rewrite handle_range_cons, handle_feature_unfold. cbv zeta.
  edestruct Hdata as (ev & ->). edestruct Hproto as (pb & ->).
  edestruct Hany as (data & ->).
  rewrite execute_unfold. cbv zeta. cbn [trace set_trace].
  edestruct Hnf as (e & -> & ->); [rewrite calls_app; cbn; lia|].
  cbn [codes.eqb]. rewrite registerProgram_run. cbv zeta. cbn [trace set_trace].
  rewrite Hreg by (rewrite !calls_app; cbn; lia).
  cbn [fst snd]. eexists. split; [reflexivity|].
  cbn [trace set_trace]. rewrite !calls_app. cbn. lia.
Qed.

Lemma handle_stops_when_reregistration_fails_witness :
  exists s',
    handle_range cases.no_programs 2 cases.order (ExtractMetadata demo.memory cases.order) []
      [Some demo.clicks; Some demo.views] (initial demo.conn)
    = (Ret (([] ++ [Some demo.clicks; Some demo.views])%list,
            Some (wrapError "failed to register program: %w"
                    (wrapError "failed to register program: %w" cases.unavailable))), s')
    /\ calls is_ExecutePyExp (trace s') = calls is_ExecutePyExp (trace (initial demo.conn)) + 1
    /\ calls is_LoadPyExpProgram (trace s')
       = calls is_LoadPyExpProgram (trace (initial demo.conn)) + 1.
Proof.
  apply (handle_stops_when_reregistration_fails cases.no_programs 2 cases.order
           (ExtractMetadata demo.memory cases.order) [] demo.clicks [Some demo.views]
           (initial demo.conn) cases.unavailable).
  - apply cases_encodes.
  - intros t req Ht. exists demo.not_found. cbn in *. rewrite Ht. split; reflexivity.
  - intros t req _. reflexivity.
Defined.

(** ** More on the source controller *)

Lemma Add_unfold env src s :
  Add env src s =
  let s0 := set_m_ready s false in
  if negb (String.eqb (ds_Kind src) "streaming") then
    (Ret tt, log_error s0 (errorString ("unsupported DataConenctor kind: " ++ ds_Kind src))
                       "kind is not streaming")
  else
    let p := ParseConfig env (trace s) src in
    let s1 := set_trace s0 (trace s ++ [EvParseConfig src (snd p)])%list in
    let s2 := match snd p with
              | Some err => log_error s1 err "failed to retrieve config"
              | None => s1
              end in
    match cfg_Unmarshal env (fst p) with
    | inr err => (Ret tt, log_error s2 err "failed to unmarshal streaming config")
    | inl (kind, n, schema) =>
      let bs0 := mkBaseStreaming kind (if (n =? 0)%Z then 1%Z else n) schema None None [] in
      match match schema with
            | Some u => registerSchema env (URL_String env u) s2
            | None => (Ret None, s2)
            end with
      | (Ret (Some err), s3) => (Ret tt, log_error s3 err "failed to register schema")
      | (Ret None, s3) =>
        match brokers_Get env kind with
        | None => (Ret tt, log_error s3 (errorString ("broker " ++ kind ++ " not found"))
                                     "invalid broker kind")
        | Some broker =>
          let bs1 := set_mdExtractor bs0 (ExtractMetadata broker) in
          let g := length (scopes s3) in
          let s4 := set_m_cancel
                      (set_scopes s3 (scopes s3 ++ [mkScope false NotStarted 0 None])%list)
                      (Some g) in
          let e := Subscribe broker (trace s4) src (fst p) in
          let s5 := set_trace s4 (trace s4 ++ [EvSubscribe g kind e])%list in
          match e with
          | Some err => (Ret tt, log_error s5 err "failed to create subscription")
          | None =>
            let bs2 := set_subscription bs1 (Some g) in
            let s6 := set_scopes s5
                        (alter (λ sc, mkScope (cancelled sc) Waiting (workers sc) (sc_bs sc))
                               g (scopes s5)) in
            match getFeatureDefinitions env src bs2 s6 with
            | (Ret fs, s7) =>
                let bs3 := set_features bs2 fs in
                let s8 := set_scopes s7
                            (alter (λ sc, mkScope (cancelled sc) (teardown sc)
                                                  (Z.to_nat (Workers bs3)) (Some bs3))
                                   g (scopes s7)) in
                (Ret tt,
                 set_trace (set_m_bs (set_m_ready s8 true) (Some bs3))
                           (trace s8 ++ [EvLogInfo "Listening for streaming events..."])%list)
            | (Panic r, s7) => (Panic r, s7)
            | (OutOfFuel, s7) => (OutOfFuel, s7)
            end
          end
        end
      | (Panic r, s3) => (Panic r, s3)
      | (OutOfFuel, s3) => (OutOfFuel, s3)
      end
    end.
Proof.
  unfold Add, log_error. cbv zeta.
  unfold bind at 1. unfold modify at 1.
  destruct (negb (String.eqb (ds_Kind src) "streaming")); [reflexivity|].
  unfold bind at 1. unfold source_ParseConfig, bind, get_state, emit, modify, ret at 1.
  cbn [trace set_m_ready fst snd].
  set (p := ParseConfig env (trace s) src).
  destruct (cfg_Unmarshal env (fst p)) as [[[kind n] schema]|err].
  2: { destruct (snd p); reflexivity. }
  unfold WithCancel, broker_Subscribe, update_scope, subscribe, update_scope,
    logError, logInfo, bind, get_state, emit, modify, ret.
  cbn [Workers].
  destruct (n =? 0)%Z; destruct (snd p) as [perr|]; destruct schema as [u|];
    cbn -[registerSchema getFeatureDefinitions];
    try match goal with |- context [registerSchema env ?x ?s2] =>
      destruct (registerSchema env x s2) as [[[err|]| |] s3] end; try reflexivity;
    (destruct (brokers_Get env kind) as [broker|]; [|reflexivity]);
    cbn -[registerSchema getFeatureDefinitions];
    match goal with |- context [Subscribe broker ?t src (fst p)] =>
      destruct (Subscribe broker t src (fst p)) as [serr|] end; try reflexivity;
    match goal with |- context [getFeatureDefinitions env src ?b ?s6] =>
      destruct (getFeatureDefinitions env src b s6) as [[fs| |] s7] end; reflexivity.
Qed.

Lemma alter_last {A} (f : A -> A) (l : list A) (x : A) :
  alter f (length l) (l ++ [x])%list = (l ++ [f x])%list.
Proof. induction l as [|y l IH]; cbn; [reflexivity | f_equal; exact IH]. Qed.

Lemma Add_outcome env src s r s' :
  Add env src s = (r, s') -> AddOutcome env src s r s'.
Proof.
  rewrite Add_unfold. unfold log_error. cbv zeta.
  destruct (negb (String.eqb (ds_Kind src) "streaming")).
  { intros [= <- <-]. apply add_not_started; try reflexivity.
    cbn [trace set_trace set_m_ready]. rewrite calls_app. cbn. lia. }
  set (p := ParseConfig env (trace s) src).
  set (s2 := match snd p with Some err => _ | None => _ end).
  assert (F2 : m_ready s2 = false /\ scopes s2 = scopes s /\ m_cancel s2 = m_cancel s
               /\ m_bs s2 = m_bs s
               /\ calls is_Subscribe (trace s2) = calls is_Subscribe (trace s)).
  { unfold s2. destruct (snd p); cbn [m_ready scopes m_cancel m_bs trace set_trace set_m_ready];
      rewrite !calls_app; cbn; repeat split; lia. }
  clearbody s2. destruct F2 as (Fr & Fs & Fc & Fb & Ft).
  destruct (cfg_Unmarshal env (fst p)) as [[[kind n] schema]|err] eqn:Hcfg.
  2: { intros [= <- <-]. apply add_not_started; try assumption; try reflexivity.
       cbn [trace set_trace]. rewrite calls_app. cbn. lia. }
  set (o := match schema with Some u => _ | None => _ end).
  assert (F3 : appends_only (λ e, is_NewUUID e || is_RegisterSchema e) s2 (snd o)
               /\ fst o <> OutOfFuel /\ forall reason, fst o <> Panic reason).
  { unfold o. destruct schema as [u|].
    - split; [apply registerSchema_appends|]. rewrite registerSchema_run. cbv zeta.
      split; [discriminate | intros; discriminate].
    - split; [apply appends_only_refl|]. split; [discriminate | intros; discriminate]. }
  clearbody o. destruct o as [ro s3]. cbn [fst snd] in F3. destruct F3 as (F3 & Hnf & Hnp).
  pose proof (appends_only_fields _ _ _ F3) as (Gc & Gb & Gr & _ & Gs).
  assert (Gt : calls is_Subscribe (trace s3) = calls is_Subscribe (trace s2))
    by (eapply appends_only_calls; [|exact F3]; intros []; cbn; congruence).
  destruct ro as [[err|]| |]; [| |exfalso; eapply Hnp; reflexivity | congruence].
  { intros [= <- <-]. apply add_not_started;
      cbn [m_ready scopes m_cancel m_bs trace set_trace]; try congruence.
    rewrite calls_app. cbn. lia. }
  destruct (brokers_Get env kind) as [broker|].
  2: { intros [= <- <-]. apply add_not_started;
         cbn [m_ready scopes m_cancel m_bs trace set_trace]; try congruence.
       rewrite calls_app. cbn. lia. }
  destruct (Subscribe broker _ src (fst p)) as [serr|].
  { intros [= <- <-]. apply add_subscribe_failed;
      cbn [m_ready scopes m_cancel m_bs trace set_trace set_m_cancel set_scopes];
      try congruence.
    rewrite !calls_app. cbn. lia. }
  match goal with |- context [getFeatureDefinitions env src ?b0 ?st0] =>
    set (bs2 := b0); set (s6 := st0) end;
    destruct (getFeatureDefinitions_appends env src bs2 s6) as (F7 & Hnf7);
    pose proof (getFeatureDefinitions_length env src bs2 s6) as Hent;
    destruct (getFeatureDefinitions env src bs2 s6) as [[fs| |] s7];
    cbn [fst snd] in F7, Hnf7; [| |congruence];
    pose proof (appends_only_fields _ _ _ F7) as (Hc & Hb & Hr & _ & Hs);
    assert (Ht : calls is_Subscribe (trace s7) = calls is_Subscribe (trace s6))
      by (eapply appends_only_calls; [|exact F7]; intros []; cbn; congruence);
    assert (Hs6 : scopes s6 = (scopes s ++ [mkScope false Waiting 0 None])%list)
      by (unfold s6; cbn [scopes set_scopes set_trace set_m_cancel];
          rewrite alter_last, Gs, Fs; reflexivity);
    assert (Ht6 : calls is_Subscribe (trace s6) = calls is_Subscribe (trace s) + 1)
      by (unfold s6; cbn [trace set_scopes set_trace set_m_cancel];
          rewrite calls_app; cbn; lia);
    intros [= <- <-].
  - pose proof (Hent fs s7 eq_refl) as Hlen.
    eapply add_started with (bs := set_features bs2 fs);
      cbn [m_ready scopes m_cancel m_bs trace set_trace set_m_bs set_m_ready set_scopes
           set_features BrokerKind Workers bs_Schema subscription features].
    + reflexivity.
    + reflexivity.
    + rewrite Hs, Hs6. rewrite <- Fs, <- Gs. unfold s6.
      cbn [scopes set_scopes set_trace set_m_cancel]. rewrite Gs, Fs, alter_last. reflexivity.
    + rewrite Hc. unfold s6. cbn. congruence.
    + reflexivity.
    + exact Hcfg.
    + reflexivity.
    + reflexivity.
    + reflexivity.
    + unfold bs2. cbn. congruence.
    + exact Hlen.
    + rewrite calls_app. cbn. lia.
  - eapply add_panicked.
    + reflexivity.
    + rewrite Hr. unfold s6. cbn. congruence.
    + rewrite Hs. exact Hs6.
    + rewrite Hc. unfold s6. cbn. congruence.
    + rewrite Hb. unfold s6. cbn. congruence.
    + lia.
Qed.

(** X15: when [Add] leaves the manager ready, it returned normally, the
    configuration decoded, [Subscribe] was called once, and exactly one
    scope was added: not cancelled, its teardown task waiting, with the
    configured number of workers (1 when 0 is configured, none when a
    negative number is), stored in [m.cancel], its [BaseStreaming] stored
    in [m.bs] with one feature entry per reference. *)
Theorem ready_means_subscribed env src s r s' :
  Add env src s = (r, s') ->
  m_ready s' = true ->
  exists bs kind n schema,
    r = Ret tt
    /\ cfg_Unmarshal env (fst (ParseConfig env (trace s) src)) = inl (kind, n, schema)
    /\ scopes s' = (scopes s ++ [mkScope false Waiting (Z.to_nat (if (n =? 0)%Z then 1 else n))
                                         (Some bs)])%list
    /\ m_cancel s' = Some (length (scopes s))
    /\ m_bs s' = Some bs
    /\ subscription bs = Some (length (scopes s))
    /\ length (features bs) = length (ds_Features src)
    /\ calls is_Subscribe (trace s') = calls is_Subscribe (trace s) + 1.
Proof.
  intros H Hready. apply Add_outcome in H.
  destruct H as [? Hr| ? Hr|bs kind n schema Hret _ Hsc Hc Hb Hcfg _ Hw _ Hsub Hlen Ht| ? ? Hr];
    try congruence.
  exists bs, kind, n, schema. rewrite <- Hw. auto 10.
Qed.

Lemma ready_means_subscribed_witness :
  exists bs kind n schema,
    fst (Add demo.healthy demo.orders (initial demo.conn)) = Ret tt
    /\ cfg_Unmarshal demo.healthy
         (fst (ParseConfig demo.healthy (trace (initial demo.conn)) demo.orders))
       = inl (kind, n, schema)
    /\ scopes (snd (Add demo.healthy demo.orders (initial demo.conn)))
       = (scopes (initial demo.conn)
          ++ [mkScope false Waiting (Z.to_nat (if (n =? 0)%Z then 1 else n)) (Some bs)])%list
    /\ m_cancel (snd (Add demo.healthy demo.orders (initial demo.conn)))
       = Some (length (scopes (initial demo.conn)))
    /\ m_bs (snd (Add demo.healthy demo.orders (initial demo.conn))) = Some bs
    /\ subscription bs = Some (length (scopes (initial demo.conn)))
    /\ length (features bs) = length (ds_Features demo.orders)
    /\ calls is_Subscribe (trace (snd (Add demo.healthy demo.orders (initial demo.conn))))
       = calls is_Subscribe (trace (initial demo.conn)) + 1.
Proof.
  apply (ready_means_subscribed demo.healthy demo.orders (initial demo.conn)).
  - vm_compute. reflexivity.
  - reflexivity.
Defined.

(** X16: when [Add] leaves the manager not ready, no worker was started:
    at most one scope was added, with no worker and no [BaseStreaming],
    and [m.bs] is as before. *)
Theorem not_ready_means_no_workers env src s r s' :
  Add env src s = (r, s') ->
  m_ready s' = false ->
  exists fresh,
    scopes s' = (scopes s ++ fresh)%list
    /\ length fresh <= 1
    /\ Forall (λ sc, workers sc = 0 /\ cancelled sc = false /\ sc_bs sc = None) fresh
    /\ m_bs s' = m_bs s.
Proof.
  intros H Hready. apply Add_outcome in H.
  destruct H as [_ _ Hs _ Hb _|_ _ Hs _ Hb _|? ? ? ? _ Hr|? _ _ Hs _ Hb _]; try congruence.
  - exists []. rewrite app_nil_r. repeat split; auto.
  - eexists. split; [exact Hs|]. repeat split; auto; repeat constructor.
  - eexists. split; [exact Hs|]. repeat split; auto; repeat constructor.
Qed.

Lemma not_ready_means_no_workers_witness :
  exists fresh,
    scopes (snd (Add cases.no_brokers demo.orders demo.running))
    = (scopes demo.running ++ fresh)%list
    /\ length fresh <= 1
    /\ Forall (λ sc, workers sc = 0 /\ cancelled sc = false /\ sc_bs sc = None) fresh
    /\ m_bs (snd (Add cases.no_brokers demo.orders demo.running)) = m_bs demo.running.
Proof.
  apply (not_ready_means_no_workers cases.no_brokers demo.orders demo.running
           (fst (Add cases.no_brokers demo.orders demo.running))).
  - vm_compute. reflexivity.
  - reflexivity.
Defined.

Lemma Add_scopes_prefix env src s r s' :
  Add env src s = (r, s') ->
  (forall g sc, scopes s !! g = Some sc -> scopes s' !! g = Some sc)
  /\ length (scopes s) <= length (scopes s') <= length (scopes s) + 1.
Proof.
  intros H. apply Add_outcome in H.
  destruct H as [_ _ Hs _ _ _|_ _ Hs _ _ _|? ? ? ? _ _ Hs|? _ _ Hs _ _ _]; rewrite Hs;
    (split; [intros g sc Hg; try exact Hg; apply lookup_app_l_Some; exact Hg
            | rewrite ?length_app; cbn; lia]).
Qed.

Lemma worker_turn_cancelled env fuel g s sc :
  scopes s !! g = Some sc -> cancelled sc = true ->
  perform env fuel (RunWorker g) s
  = (Ret tt, set_scopes s (alter (λ sc, mkScope (cancelled sc) (teardown sc)
                                                (pred (workers sc)) (sc_bs sc)) g (scopes s))).
Proof.
  intros Hg Hc. cbn [perform]. unfold worker_turn, worker_exit, update_scope, bind, get_state,
    modify, ret. rewrite Hg, Hc. reflexivity.
Qed.

(** X20: [Update] with a scope stored in [m.cancel] leaves that scope
    cancelled, with its workers and teardown state, whatever [Add] then
    does; a worker of that scope therefore leaves at its next turn without
    calling [Receive]. *)
Theorem Update_cancels_stored_scope env fuel old src s g sc r s' :
  m_cancel s = Some g ->
  scopes s !! g = Some sc ->
  Update env old src s = (r, s') ->
  scopes s' !! g = Some (mkScope true (teardown sc) (workers sc) (sc_bs sc))
  /\ exists s'',
      perform env fuel (RunWorker g) s' = (Ret tt, s'')
      /\ trace s'' = trace s'
      /\ workers <$> scopes s'' !! g = Some (pred (workers sc)).
Proof.
  intros Hc Hg H. rewrite Update_unfold in H.
  apply Add_scopes_prefix in H. destruct H as (H & _).
  assert (Hg' : scopes s' !! g = Some (mkScope true (teardown sc) (workers sc) (sc_bs sc))).
  { apply H. unfold cancel_stored. rewrite Hc. cbn [scopes set_m_bs set_scopes].
    rewrite list_lookup_alter_eq, Hg. reflexivity. }
  split; [exact Hg'|].
  erewrite worker_turn_cancelled; [|exact Hg'|reflexivity].
  eexists. split; [reflexivity|]. split; [reflexivity|].
  cbn [scopes set_scopes]. rewrite list_lookup_alter_eq, Hg'. reflexivity.
Qed.

Lemma Update_cancels_stored_scope_witness :
  scopes (snd (Update demo.healthy demo.orders demo.orders demo.running)) !! 0
  = Some (mkScope true Waiting 1 (Some (demo.streaming [Some demo.clicks])))
  /\ exists s'',
      perform demo.healthy 2 (RunWorker 0)
              (snd (Update demo.healthy demo.orders demo.orders demo.running)) = (Ret tt, s'')
      /\ trace s'' = trace (snd (Update demo.healthy demo.orders demo.orders demo.running))
      /\ workers <$> scopes s'' !! 0 = Some (pred 1).
Proof.
  apply (Update_cancels_stored_scope demo.healthy 2 demo.orders demo.orders demo.running 0
           (mkScope false Waiting 1 (Some (demo.streaming [Some demo.clicks])))
           (fst (Update demo.healthy demo.orders demo.orders demo.running))).
  - reflexivity.
  - reflexivity.
  - vm_compute. reflexivity.
Defined.

(** X14: a worker whose [Receive] fails logs the error and leaves its
    loop: nothing else is added to the trace, the scope has one worker
    less, and when it was the only one no worker turn is possible on that
    scope any more. *)
Theorem worker_stops_on_receive_error env fuel g s sc err :
  scopes s !! g = Some sc ->
  cancelled sc = false ->
  Receive env (trace s) g = inr err ->
  exists s',
    perform env fuel (RunWorker g) s = (Ret tt, s')
    /\ trace s' = (trace s ++ [EvReceive g (inr err);
                               EvLogError err "failed to receive message"])%list
    /\ scopes s' !! g = Some (mkScope false (teardown sc) (pred (workers sc)) (sc_bs sc))
    /\ (workers sc = 1 -> enabled (RunWorker g) s' = false).
Proof.
  intros Hg Hc Hrecv. cbn [perform].
  unfold worker_turn, worker_exit, subscription_Receive, update_scope, logError, emit,
    bind, get_state, modify, ret. rewrite Hg, Hc, Hrecv. cbn.
  eexists. split; [reflexivity|]. cbn. rewrite <- app_assoc.
  split; [reflexivity|].
  rewrite list_lookup_alter_eq, Hg. cbn. rewrite Hc. split; [reflexivity|].
  intros ->. reflexivity.
Qed.

Lemma worker_stops_on_receive_error_witness :
  exists s',
    perform demo.healthy 2 (RunWorker 0) demo.running = (Ret tt, s')
    /\ trace s' = (trace demo.running
                   ++ [EvReceive 0 (inr (errorString "subscription closed"));
                       EvLogError (errorString "subscription closed")
                                  "failed to receive message"])%list
    /\ scopes s' !! 0
       = Some (mkScope false Waiting (pred 1) (Some (demo.streaming [Some demo.clicks])))
    /\ (1 = 1 -> enabled (RunWorker 0) s' = false).
Proof.
  apply (worker_stops_on_receive_error demo.healthy 2 0 demo.running
           (mkScope false Waiting 1 (Some (demo.streaming [Some demo.clicks])))
           (errorString "subscription closed")); reflexivity.
Defined.

(** X21: the teardown task of a cancelled scope shuts the subscription
    down once, sets [m.cancel] to nil, leaves the workers alone and cannot
    run a second time. *)
Theorem teardown_runs_once env fuel g s :
  enabled (RunTeardown g) s = true ->
  exists s',
    perform env fuel (RunTeardown g) s = (Ret tt, s')
    /\ calls is_Shutdown (trace s') = calls is_Shutdown (trace s) + 1
    /\ m_cancel s' = None
    /\ enabled (RunTeardown g) s' = false
    /\ (workers <$> scopes s') = (workers <$> scopes s).
Proof.
  cbn [enabled perform]. destruct (scopes s !! g) as [sc|] eqn:Hg; [|discriminate].
  intros Hen. apply andb_prop in Hen. destruct Hen as (Hc & Ht).
  destruct (teardown sc) eqn:Htd; try discriminate Ht.
  assert (Hw : forall l : list Scope,
    workers <$> alter (λ sc, mkScope (cancelled sc) Finished (workers sc) (sc_bs sc)) g l
    = workers <$> l).
  { intros l. apply list_eq. intros i. rewrite !list_lookup_fmap.
    destruct (decide (i = g)) as [->|Hne].
    - rewrite list_lookup_alter_eq. destruct (l !! g); reflexivity.
    - rewrite list_lookup_alter_ne by congruence. reflexivity. }
  unfold teardown_task, subscription_Shutdown, update_scope, logError, emit, bind, get_state,
    modify, ret.
  cbn [trace set_trace set_m_cancel set_scopes scopes m_cancel].
  destruct (Shutdown env (trace s) g) as [err|];
    cbn [trace set_trace set_m_cancel set_scopes scopes m_cancel];
    (eexists; split; [reflexivity|];
     cbn [trace set_trace set_m_cancel set_scopes scopes m_cancel];
     rewrite list_lookup_alter_eq, Hg, Hw, ?calls_app; cbn; rewrite Hc;
     repeat split; lia).
Qed.

Lemma teardown_runs_once_witness :
  exists s',
    perform demo.healthy 2 (RunTeardown 0) cases.replaced = (Ret tt, s')
    /\ calls is_Shutdown (trace s') = calls is_Shutdown (trace cases.replaced) + 1
    /\ m_cancel s' = None
    /\ enabled (RunTeardown 0) s' = false
    /\ (workers <$> scopes s') = (workers <$> scopes cases.replaced).
Proof.
  apply (teardown_runs_once demo.healthy 2 0 cases.replaced). reflexivity.
Defined.

Lemma effective_key_eq src ref :
  ref_ObjectKey (if String.eqb (ref_Namespace ref) ""
                 then mkRef (ref_Name ref) (ds_Namespace src) else ref)
  = effective_key src ref.
Proof. unfold effective_key, ref_ObjectKey. destruct (String.eqb _ _); reflexivity. Qed.

(** X19: for a source without a schema whose first reference is a
    streaming feature with an empty or not fully qualified schema, [Add]
    itself panics on the nil pointer, after the broker has subscribed: the
    new scope is left uncancelled with its teardown task waiting and no
    worker, and the manager is not ready. *)
Theorem schemaless_source_crashes_Add env src s kind n broker ref rest obj schema expression :
  ds_Kind src = "streaming" ->
  cfg_Unmarshal env (fst (ParseConfig env (trace s) src)) = inl (kind, n, None) ->
  brokers_Get env kind = Some broker ->
  (forall t, Subscribe broker t src (fst (ParseConfig env (trace s) src)) = None) ->
  ds_Features src = ref :: rest ->
  (forall t, client_Get env t (effective_key src ref) = inl obj) ->
  json_Unmarshal env (fo_Raw obj) = inl ("streaming", schema, expression) ->
  (schema = "" \/ forall u, url_Parse env schema = inl u -> fully_qualified u = false) ->
  fst (Add env src s) = Panic "invalid memory address or nil pointer dereference"
  /\ calls is_Subscribe (trace (snd (Add env src s))) = calls is_Subscribe (trace s) + 1
  /\ scopes (snd (Add env src s)) = (scopes s ++ [mkScope false Waiting 0 None])%list
  /\ m_ready (snd (Add env src s)) = false.
Proof.
  intros Hkind Hcfg Hbroker Hsub Hrefs Hget Hjson Hschema.
  assert (Hpanic : fst (Add env src s)
                   = Panic "invalid memory address or nil pointer dereference").
  { rewrite Add_unfold. cbv zeta. rewrite Hkind, Hcfg, Hbroker, Hsub.
    cbn [String.eqb Ascii.eqb Bool.eqb negb].
    unfold getFeatureDefinitions. unfold bind at 1. unfold logInfo, emit, modify.
    rewrite Hrefs, getFeatureDefinitions_range_cons.
    match goal with |- context [getFeature env ?r ?b ?s0] =>
      pose proof (getFeature_without_source_schema env r b s0 obj schema expression eq_refl)
        as Hp;
      rewrite effective_key_eq in Hp; specialize (Hp (Hget _) Hjson Hschema);
      destruct (getFeature env r b s0) as [[p| |] s1] end;
      cbn [fst] in Hp; try discriminate Hp.
    injection Hp as ->. reflexivity. }
  split; [exact Hpanic|].
  destruct (Add env src s) as [r s'] eqn:HAdd. cbn [fst snd] in *. subst r.
  apply Add_outcome in HAdd.
  destruct HAdd as [Hr|Hr|? ? ? ? Hr|reason _ Hready Hs _ _ Ht]; try discriminate Hr.
  auto.
Qed.

Lemma schemaless_source_crashes_Add_witness :
  let src := demo.source "streaming" "" ["clicks"] in
  fst (Add demo.healthy src (initial demo.conn))
  = Panic "invalid memory address or nil pointer dereference"
  /\ calls is_Subscribe (trace (snd (Add demo.healthy src (initial demo.conn))))
     = calls is_Subscribe (trace (initial demo.conn)) + 1
  /\ scopes (snd (Add demo.healthy src (initial demo.conn)))
     = (scopes (initial demo.conn) ++ [mkScope false Waiting 0 None])%list
  /\ m_ready (snd (Add demo.healthy src (initial demo.conn))) = false.
Proof.
  apply (schemaless_source_crashes_Add demo.healthy (demo.source "streaming" "" ["clicks"])
           (initial demo.conn) "memory" 0%Z demo.memory (mkRef "clicks" "") []
           (mkFeatureObject "clicks.json" "clicks.default") "" "count()");
    try reflexivity.
  left. reflexivity.
Defined.

(** ** More on the consumer loop *)







Lemma headers_fold metadata :
  fst (headers metadata) = fst (fold_left headers_step metadata ("", url.zero)).
Proof.
  unfold headers. change (fold_left _ metadata ("", url.zero))
    with (fold_left headers_step metadata ("", url.zero)).
  destruct (fold_left headers_step metadata ("", url.zero)). reflexivity.
Qed.

Lemma headers_step_no_match metadata : forall ct u,
  Forall (λ kv, ToLower (fst kv) <> "content-type") metadata ->
  fst (fold_left headers_step metadata (ct, u)) = ct.
Proof.
  induction metadata as [|[k v] rest IH]; intros ct u H; [reflexivity|].
  inversion H as [|? ? Hk Hrest]; subst. cbn [fst] in Hk.
  apply String.eqb_neq in Hk. cbn [fold_left headers_step]. rewrite Hk.
  apply IH, Hrest.
Qed.

(** X11: the content type of the envelope is empty when no metadata key
    equals ["content-type"] up to case, and otherwise the value of the
    last such key in the order the metadata is visited. *)
Theorem content_type_lookup :
  (forall metadata,
     Forall (λ kv, ToLower (fst kv) <> "content-type") metadata ->
     fst (headers metadata) = "")
  /\ (forall before k v after,
     ToLower k = "content-type" ->
     Forall (λ kv, ToLower (fst kv) <> "content-type") after ->
     fst (headers (before ++ (k, v) :: after)) = v).
Proof.
  split.
  - intros metadata H. rewrite headers_fold. apply headers_step_no_match, H.
  - intros before k v after Hk H. rewrite headers_fold, fold_left_app.
    destruct (fold_left headers_step before ("", url.zero)) as [ct u].
    cbn [fold_left headers_step]. rewrite Hk. cbn [String.eqb Ascii.eqb Bool.eqb].
    apply headers_step_no_match, H.
Qed.

Lemma content_type_lookup_witness :
  fst (headers [("x-tenant", "acme")]) = ""
  /\ fst (headers ([("x-tenant", "acme")] ++ ("Content-TYPE", "text/plain") :: [("a", "b")]))
     = "text/plain".
Proof.
  split.
  - apply (proj1 content_type_lookup). repeat constructor. discriminate.
  - apply (proj2 content_type_lookup); [reflexivity|]. repeat constructor. discriminate.
Defined.

(** X17: a configuration that does not decode, a source schema the
    runtime refuses, or a broker kind that is not registered stops [Add]
    before it subscribes: it returns with the manager not ready, no scope
    created, [m.cancel] and [m.bs] as before and no call to
    [Subscribe]. *)
Theorem Add_aborts_before_subscribing env src s :
  let cfg := fst (ParseConfig env (trace s) src) in
  ((exists err, cfg_Unmarshal env cfg = inr err)
   \/ (exists kind n u err,
         cfg_Unmarshal env cfg = inl (kind, n, Some u) /\ schema_registration_fails env err)
   \/ (exists kind n schema,
         cfg_Unmarshal env cfg = inl (kind, n, schema) /\ brokers_Get env kind = None)) ->
  exists s',
    Add env src s = (Ret tt, s')
    /\ m_ready s' = false
    /\ scopes s' = scopes s
    /\ m_cancel s' = m_cancel s
    /\ m_bs s' = m_bs s
    /\ calls is_Subscribe (trace s') = calls is_Subscribe (trace s).
Proof.
  cbv zeta. intros H. rewrite Add_unfold. unfold log_error. cbv zeta.
  destruct (negb (String.eqb (ds_Kind src) "streaming")).
  { eexists. split; [reflexivity|]. cbn [m_ready scopes m_cancel m_bs trace set_trace set_m_ready].
    rewrite calls_app. cbn. repeat split; lia. }
  set (p := ParseConfig env (trace s) src) in *.
  set (s2 := match snd p with Some err => _ | None => _ end).
  assert (F2 : m_ready s2 = false /\ scopes s2 = scopes s /\ m_cancel s2 = m_cancel s
               /\ m_bs s2 = m_bs s
               /\ calls is_Subscribe (trace s2) = calls is_Subscribe (trace s)).
  { unfold s2. destruct (snd p); cbn [m_ready scopes m_cancel m_bs trace set_trace set_m_ready];
      rewrite !calls_app; cbn; repeat split; lia. }
  clearbody s2. destruct F2 as (Fr & Fs & Fc & Fb & Ft).
  assert (Hstop : forall s3 err msg,
    appends_only (λ e, is_NewUUID e || is_RegisterSchema e) s2 s3 ->
    exists s', (Ret tt, set_trace s3 (trace s3 ++ [EvLogError err msg])%list) = (Ret tt, s')
      /\ m_ready s' = false /\ scopes s' = scopes s /\ m_cancel s' = m_cancel s
      /\ m_bs s' = m_bs s
      /\ calls is_Subscribe (trace s') = calls is_Subscribe (trace s)).
  { intros s3 err msg F3. eexists. split; [reflexivity|].
    pose proof (appends_only_fields _ _ _ F3) as (Gc & Gb & Gr & _ & Gs).
    assert (Gt : calls is_Subscribe (trace s3) = calls is_Subscribe (trace s2))
      by (eapply appends_only_calls; [|exact F3]; intros []; cbn; congruence).
    cbn [m_ready scopes m_cancel m_bs trace set_trace]. rewrite calls_app. cbn.
    repeat split; try congruence. lia. }
  destruct H as [(err & ->)|[(kind & n & u & err & -> & Hfail)|(kind & n & schema & -> & Hb)]].
  - apply Hstop, appends_only_refl.
  - pose proof (registerSchema_appends env (URL_String env u) s2) as F3.
    rewrite registerSchema_run in *. cbv zeta in *. rewrite Hfail in *. cbn [snd] in F3.
    apply Hstop, F3.
  - destruct schema as [u|].
    + pose proof (registerSchema_appends env (URL_String env u) s2) as F3.
      rewrite registerSchema_run in *. cbv zeta in *. cbn [snd] in F3.
      destruct (RegisterSchema env _ _) as [resp|err]; [destruct (negb _)|];
        try (apply Hstop, F3). rewrite Hb. apply Hstop, F3.
    + rewrite Hb. apply Hstop, appends_only_refl.
Qed.

Lemma Add_aborts_before_subscribing_witness :
  exists s',
    Add cases.no_schemas demo.orders demo.running = (Ret tt, s')
    /\ m_ready s' = false
    /\ scopes s' = scopes demo.running
    /\ m_cancel s' = m_cancel demo.running
    /\ m_bs s' = m_bs demo.running
    /\ calls is_Subscribe (trace s') = calls is_Subscribe (trace demo.running).
Proof.
  apply (Add_aborts_before_subscribing cases.no_schemas demo.orders demo.running).
  right. left. exists "memory", 0%Z, demo.order_schema, cases.unavailable.
  split; [reflexivity | intros t req; reflexivity].
Defined.

(** X18: when [Subscribe] fails, [Add] returns with the manager not ready
    and the scope it had just made left behind: stored in [m.cancel], not
    cancelled, with no teardown task and no worker. *)
Theorem failed_subscription_leaves_a_scope env src s kind n schema broker err :
  ds_Kind src = "streaming" ->
  cfg_Unmarshal env (fst (ParseConfig env (trace s) src)) = inl (kind, n, schema) ->
  schema_registers env ->
  brokers_Get env kind = Some broker ->
  (forall t, Subscribe broker t src (fst (ParseConfig env (trace s) src)) = Some err) ->
  exists s',
    Add env src s = (Ret tt, s')
    /\ m_ready s' = false
    /\ scopes s' = (scopes s ++ [mkScope false NotStarted 0 None])%list
    /\ m_cancel s' = Some (length (scopes s))
    /\ enabled (RunTeardown (length (scopes s))) s' = false
    /\ enabled (RunWorker (length (scopes s))) s' = false.
Proof.
  intros Hkind Hcfg Hreg Hbroker Hsub.
  rewrite Add_unfold. unfold log_error. cbv zeta. rewrite Hkind, Hcfg, Hbroker.
  cbn [String.eqb Ascii.eqb Bool.eqb negb].
  set (p := ParseConfig env (trace s) src) in *.
  set (s2 := match snd p with Some e => _ | None => _ end).
  assert (F2 : scopes s2 = scopes s /\ m_ready s2 = false).
  { unfold s2. destruct (snd p); split; reflexivity. }
  clearbody s2. destruct F2 as (F2 & R2).
  set (o := match schema with Some u => _ | None => _ end).
  assert (F3 : exists s3, o = (Ret None, s3) /\ scopes s3 = scopes s /\ m_ready s3 = false).
  { unfold o. destruct schema as [u|]; [|eauto].
    rewrite registerSchema_run. cbv zeta.
    edestruct Hreg as (resp & -> & Hid). cbn [rs_Uuid] in Hid.
    rewrite Hid, String.eqb_refl. cbn [negb]. eexists. split; [reflexivity|].
    split; [exact F2 | exact R2]. }
  clearbody o. destruct F3 as (s3 & -> & F3 & R3). rewrite Hsub.
  eexists. split; [reflexivity|].
  cbn [m_ready scopes m_cancel set_trace set_m_cancel set_scopes enabled].
  rewrite F3, lookup_app_r, Nat.sub_diag by lia. repeat split. exact R3.
Qed.

Lemma failed_subscription_leaves_a_scope_witness :
  exists s',
    Add cases.no_subscription demo.orders demo.running = (Ret tt, s')
    /\ m_ready s' = false
    /\ scopes s' = (scopes demo.running ++ [mkScope false NotStarted 0 None])%list
    /\ m_cancel s' = Some (length (scopes demo.running))
    /\ enabled (RunTeardown (length (scopes demo.running))) s' = false
    /\ enabled (RunWorker (length (scopes demo.running))) s' = false.
Proof.
  apply (failed_subscription_leaves_a_scope cases.no_subscription demo.orders demo.running
           "memory" 0%Z (Some demo.order_schema) cases.deaf cases.unavailable).
  - reflexivity.
  - reflexivity.
  - intros t req. eexists. split; reflexivity.
  - reflexivity.
  - intros t. reflexivity.
Defined.

(** X22: after a delete notification the scope stored in [m.cancel] is
    cancelled and its teardown task shuts the subscription down once;
    [m.cancel] ends nil and the readiness flag keeps the value it had. *)
Theorem delete_releases_the_subscription env fuel s g sc :
  m_cancel s = Some g ->
  scopes s !! g = Some sc ->
  teardown sc = Waiting ->
  exists s',
    run env fuel [OnDelete; RunTeardown g] s = Some s'
    /\ calls is_Shutdown (trace s') = calls is_Shutdown (trace s) + 1
    /\ scopes s' !! g = Some (mkScope true Finished (workers sc) (sc_bs sc))
    /\ m_cancel s' = None
    /\ m_ready s' = m_ready s.
Proof.
  intros Hc Hg Ht. cbn [run enabled perform].
  unfold Delete, cancel, update_scope, logInfo, emit, bind, get_state, modify, ret.
  cbn [trace set_trace m_cancel scopes set_scopes]. rewrite Hc.
  cbn [trace set_trace m_cancel scopes set_scopes].
  rewrite list_lookup_alter_eq, Hg. cbn [fmap option_fmap option_map cancelled teardown andb].
  rewrite Ht.
  unfold teardown_task, subscription_Shutdown, update_scope, logError, emit, bind, get_state,
    modify, ret.
  cbn [trace set_trace set_m_cancel set_scopes scopes m_cancel].
  destruct (Shutdown env _ g) as [err|];
    cbn [trace set_trace set_m_cancel set_scopes scopes m_cancel m_ready];
    (eexists; split; [reflexivity|];
     cbn [trace set_trace set_m_cancel set_scopes scopes m_cancel m_ready];
     rewrite !list_lookup_alter_eq, Hg, ?calls_app; cbn; repeat split; lia).
Qed.

Lemma delete_releases_the_subscription_witness :
  exists s',
    run demo.healthy 2 [OnDelete; RunTeardown 0] demo.running = Some s'
    /\ calls is_Shutdown (trace s') = calls is_Shutdown (trace demo.running) + 1
    /\ scopes s' !! 0
       = Some (mkScope true Finished 1 (Some (demo.streaming [Some demo.clicks])))
    /\ m_cancel s' = None
    /\ m_ready s' = m_ready demo.running.
Proof.
  apply (delete_releases_the_subscription demo.healthy 2 demo.running 0
           (mkScope false Waiting 1 (Some (demo.streaming [Some demo.clicks]))));
    reflexivity.
Defined.
